(** * pred_app/model.py: cross-validated training loop, metric aggregation
      and feature scoring

    A shallow embedding of [build_model], [build_metric_table] and
    [feature_scoring] from [src/pred_app/model.py].

    Conventions.
    - Python integers are [Z]; class labels are the integers 0 and 1.
    - Python floats are exact rationals ([Q]); a missing value (NaN) is
      [None] where pandas can produce one.  [Module Binary64] gives
      [build_metric_table] a second time, on IEEE-754 binary64 values.
    - An uncaught Python exception is the [Raise] case of [result].
    - The statistical libraries the script delegates to (the random
      train/test split, the boosted-tree learner, libm, the F-test) are the
      fields of the [Toolkit] class; the metric functions of scikit-learn
      and the pandas operations are written out from their documented
      behaviour on the inputs this script gives them.
    - The SQL store behind [utils.engine] is a finite map from table names
      to the frame last written under that name.  Console output is not
      modelled. *)

From Stdlib Require Import ZArith QArith Qround List String Lia Lqa Bool.
From Stdlib Require Import Sorting.Sorted Sorting.Permutation.
From Stdlib Require Import Floats.PrimFloat Floats.SpecFloat Floats.FloatOps.
From stdpp Require Import gmap strings.
Import ListNotations.

Open Scope Z_scope.

(* ===================================================================== *)
(** ** Exceptions *)
(* ===================================================================== *)

Inductive exn : Type :=
| ValueError
| KeyError
| UnboundLocalError
| XGBoostError.

Inductive result (A : Type) : Type :=
| Ok (a : A)
| Raise (e : exn).

Arguments Ok {A} a.
Arguments Raise {A} e.

Definition bind {A B : Type} (r : result A) (k : A -> result B) : result B :=
  match r with
  | Ok a => k a
  | Raise e => Raise e
  end.

Notation "'let*' x ':=' r 'in' k" := (bind r (fun x => k))
  (at level 10, x pattern, r at level 100, k at level 200).

Definition is_ok {A : Type} (r : result A) : bool :=
  match r with Ok _ => true | Raise _ => false end.

(* ===================================================================== *)
(** ** Numbers *)
(* ===================================================================== *)

(** A cell of a Python list of numbers: an [int] or a [float]. *)
Inductive num : Type :=
| Int (z : Z)
| Float (q : Q).

Definition num_to_Q (n : num) : Q :=
  match n with
  | Int z => inject_Z z
  | Float q => q
  end.

(** Nearest integer, ties to the even neighbour. *)
Definition round_half_even (q : Q) : Z :=
  let f := Qfloor q in
  let d := (q - inject_Z f)%Q in
  match (d ?= 1 # 2)%Q with
  | Lt => f
  | Gt => f + 1
  | Eq => if Z.even f then f else f + 1
  end.

(** [round(x, 4)]. *)
Definition round4 (x : Q) : Q :=
  (inject_Z (round_half_even (x * 10000)) / 10000)%Q.

(** [round(x, 4) * 100]. *)
Definition percent (x : Q) : Q := (round4 x * 100)%Q.

(* ===================================================================== *)
(** ** Labels, arg-max and the cross-tabulation *)
(* ===================================================================== *)

(** One row of [xgb_model.predict]: with ["num_class": 2] and objective
    ["multi:softprob"] it holds the probability of class 0 and of class 1. *)
Definition proba : Type := (Q * Q)%type.

(** [np.argmax(pred)]: the index of the first maximum. *)
Definition argmax (p : proba) : Z :=
  if Qlt_le_dec (fst p) (snd p) then 1 else 0.

Definition mem (z : Z) (l : list Z) : bool := existsb (Z.eqb z) l.

(** Number of observations with actual label [a] and predicted label [p]. *)
Definition count_pairs (a p : Z) (obs : list (Z * Z)) : Z :=
  Z.of_nat (length (List.filter (fun o => (fst o =? a) && (snd o =? p)) obs)).

(** [pd.DataFrame(dict(actual=y_test, prediction=outcomes))]: the list must
    be as long as the series. *)
Definition combined (y_test outcomes : list Z) : result (list (Z * Z)) :=
  if Nat.eqb (length y_test) (length outcomes)
  then Ok (combine y_test outcomes)
  else Raise ValueError.

(** [pd.crosstab(index=actual, columns=prediction)]: one row per actual
    label that occurs, one column per predicted label that occurs, cells
    are counts (0 where a pair never occurs). *)
Record CrossTab : Type := {
  ct_index : list Z;
  ct_columns : list Z;
  ct_obs : list (Z * Z)
}.

Definition crosstab (obs : list (Z * Z)) : CrossTab :=
  {| ct_index := nodup Z.eq_dec (map fst obs);
     ct_columns := nodup Z.eq_dec (map snd obs);
     ct_obs := obs |}.

(** [crosstab[c]]: the column labelled [c], a series indexed by the actual
    labels. *)
Record CrossCol : Type := {
  cc_index : list Z;
  cc_label : Z;
  cc_obs : list (Z * Z)
}.

Definition ct_getitem (ct : CrossTab) (c : Z) : result CrossCol :=
  if mem c (ct_columns ct)
  then Ok {| cc_index := ct_index ct; cc_label := c; cc_obs := ct_obs ct |}
  else Raise KeyError.

(** [column[r]]: label-based lookup in an integer-indexed series. *)
Definition cc_getitem (col : CrossCol) (r : Z) : result Z :=
  if mem r (cc_index col)
  then Ok (count_pairs r (cc_label col) (cc_obs col))
  else Raise KeyError.

(** [int(crosstab[c][r])]. *)
Definition ct_at (ct : CrossTab) (c r : Z) : result Z :=
  let* col := ct_getitem ct c in cc_getitem col r.

(** A class label of the binary target. *)
Definition binary (z : Z) : Prop := z = 0 \/ z = 1.

(** Both classes occur among the labels. *)
Definition both_classes (labels : list Z) : bool :=
  mem 0 labels && mem 1 labels.

(** Lines 74-75 of [build_model]. *)
Definition confusion_counts (ct : CrossTab) : result (Z * Z) :=
  let* c00 := ct_at ct 0 0 in
  let* c11 := ct_at ct 1 1 in
  let correct := c00 + c11 in
  let* c01 := ct_at ct 0 1 in
  let* c10 := ct_at ct 1 0 in
  let incorrect := c01 + c10 in
  Ok (correct, incorrect).

(* ===================================================================== *)
(** ** scikit-learn metrics on hard 0/1 predictions *)
(* ===================================================================== *)

Definition count_if (f : Z * Z -> bool) (obs : list (Z * Z)) : Z :=
  Z.of_nat (length (List.filter f obs)).

(** Number of distinct labels. *)
Definition n_classes (l : list Z) : nat := length (nodup Z.eq_dec l).

(** A quotient of two counts; scikit-learn reports 0.0 (with a warning) when
    the denominator is zero. *)
Definition ratio (a b : Z) : Q :=
  if b =? 0 then 0%Q else (inject_Z a / inject_Z b)%Q.

Definition check_consistent_length (y_true y_pred : list Z) : result unit :=
  if Nat.eqb (length y_true) (length y_pred) then Ok tt else Raise ValueError.

(** The target check of [precision_score] and [recall_score] with
    [average="binary"], [pos_label=1]: more than two labels is a multiclass
    target, and two labels must include the positive one. *)
Definition check_set_wise_labels (y_true y_pred : list Z) : result unit :=
  let* _ := check_consistent_length y_true y_pred in
  let present := nodup Z.eq_dec (y_true ++ y_pred) in
  if Nat.ltb 2 (length present) then Raise ValueError
  else if Nat.eqb (length present) 2 && negb (mem 1 present) then Raise ValueError
  else Ok tt.

Definition true_pos (obs : list (Z * Z)) : Z :=
  count_if (fun o => (fst o =? 1) && (snd o =? 1)) obs.
Definition false_pos (obs : list (Z * Z)) : Z :=
  count_if (fun o => negb (fst o =? 1) && (snd o =? 1)) obs.
Definition pred_pos (obs : list (Z * Z)) : Z :=
  count_if (fun o => snd o =? 1) obs.
Definition actual_pos (obs : list (Z * Z)) : Z :=
  count_if (fun o => fst o =? 1) obs.
Definition actual_neg (obs : list (Z * Z)) : Z :=
  count_if (fun o => negb (fst o =? 1)) obs.
Definition agree (obs : list (Z * Z)) : Z :=
  count_if (fun o => fst o =? snd o) obs.

Definition precision_score (y_true y_pred : list Z) : result Q :=
  let* _ := check_set_wise_labels y_true y_pred in
  let obs := combine y_true y_pred in
  Ok (ratio (true_pos obs) (pred_pos obs)).

Definition recall_score (y_true y_pred : list Z) : result Q :=
  let* _ := check_set_wise_labels y_true y_pred in
  let obs := combine y_true y_pred in
  Ok (ratio (true_pos obs) (actual_pos obs)).

(** The fraction of positions where both agree.  (An empty input is
    rejected by the [log_loss] call that follows it in [build_model].) *)
Definition accuracy_score (y_true y_pred : list Z) : result Q :=
  let* _ := check_consistent_length y_true y_pred in
  let obs := combine y_true y_pred in
  Ok (ratio (agree obs) (Z.of_nat (length obs))).

(** [roc_auc_score(y_true, y_score)] where every score is 0 or 1: the ROC
    curve is (0,0), (FPR,TPR), (1,1), whose area is (1 + TPR - FPR) / 2.
    A target with a single class (or more than two) is rejected. *)
Definition roc_auc_score (y_true y_score : list Z) : result Q :=
  let* _ := check_consistent_length y_true y_score in
  if negb (Nat.eqb (n_classes y_true) 2) then Raise ValueError
  else
    let obs := combine y_true y_score in
    let tpr := ratio (true_pos obs) (actual_pos obs) in
    let fpr := ratio (false_pos obs) (actual_neg obs) in
    Ok ((1 + tpr - fpr) / 2)%Q.

(** [np.clip(p, eps, 1 - eps)]. *)
Definition clip (eps p : Q) : Q :=
  if Qlt_le_dec p eps then eps
  else if Qlt_le_dec (1 - eps) p then (1 - eps)%Q else p.

(** The probability [log_loss] assigns to the true label of one sample when
    [y_pred] is one-dimensional: [y_pred] is read as the probability of the
    positive class, clipped, and completed with its complement. *)
Definition likelihood (eps : Q) (o : Z * Z) : Q :=
  let p := clip eps (inject_Z (snd o)) in
  if fst o =? 1 then p else (1 - p)%Q.

Definition Qsum (l : list Q) : Q := fold_right Qplus 0%Q l.

(** [log_loss(y_true, y_pred)] for a one-dimensional [y_pred]; [ln] is the
    platform logarithm.  The target must hold exactly two labels. *)
Definition log_loss (ln : Q -> Q) (eps : Q) (y_true y_pred : list Z) : result Q :=
  let* _ := check_consistent_length y_true y_pred in
  if negb (Nat.eqb (n_classes y_true) 2) then Raise ValueError
  else
    let obs := combine y_true y_pred in
    Ok (- (Qsum (map (fun o => ln (likelihood eps o)) obs)
           / inject_Z (Z.of_nat (length obs))))%Q.

(** The log-loss in the words of the specification: the negative
    log-likelihood of the true labels under the predicted class
    probabilities, averaged over the samples. *)
Definition neg_log_likelihood (ln : Q -> Q) (y_true : list Z)
    (preds : list proba) : Q :=
  (- (Qsum (map (fun yp => ln (if fst yp =? 1 then snd (snd yp)
                                else fst (snd yp)))
                (combine y_true preds))
      / inject_Z (Z.of_nat (length (combine y_true preds)))))%Q.

(* ===================================================================== *)
(** ** Frames and the delegated libraries *)
(* ===================================================================== *)

(** A [pd.DataFrame] of features: column labels and rows of floats. *)
Record DataFrame : Type := {
  columns : list string;
  rows : list (list Q)
}.

(** The four parts [train_test_split] returns. *)
Record Split : Type := {
  x_train : DataFrame;
  x_test : DataFrame;
  y_train : list Z;
  y_test : list Z
}.

(** The hyperparameter dictionary handed to [xgb.train]. *)
Record Params : Type := {
  max_depth : Z;
  min_child_weight : Z;
  eta : Q;
  colsample_bytree : Q;
  subsample : Q;
  objective : string;
  num_class : Z
}.

(** [xgb.DMatrix(data, label=...)]. *)
Record DMatrix : Type := {
  dm_data : DataFrame;
  dm_label : list Z
}.

(** A value of [fit.scores_]: an F statistic can be a finite number, +inf
    (zero variance within the classes) or NaN (a constant column). *)
Inductive fscore : Type :=
| FNaN
| FFin (q : Q)
| FInf.

(** What the script takes from NumPy's generator, xgboost, libm and
    scikit-learn's F-test, with the part of their contracts used below. *)
Class Toolkit : Type := {
  rng : Type;
  booster : Type;
  (** [train_test_split(X, y, test_size=...)], drawing from the generator *)
  train_test_split : DataFrame -> list Z -> Q -> rng -> result Split * rng;
  (** [xgb.train(PARAMS, dtrain, num_boost_round)] *)
  xgb_train : Params -> DMatrix -> Z -> result booster;
  (** [booster.predict(dmatrix)] *)
  xgb_predict : booster -> DMatrix -> result (list proba);
  (** the logarithm and square root of the platform *)
  flog : Q -> Q;
  fsqrt : Q -> Q;
  (** the clipping constant of [log_loss] *)
  eps : Q;
  (** [SelectKBest(score_func=f_classif, k="all").fit(X, y).scores_] *)
  f_classif : DataFrame -> list Z -> result (list fscore);
  eps_range : (0 < eps /\ eps < 1)%Q;
  flog_nonpos : forall x : Q, (0 < x)%Q -> (x <= 1)%Q -> (flog x <= 0)%Q;
  f_classif_length : forall X y s,
    f_classif X y = Ok s -> length s = length (columns X)
}.

(* ===================================================================== *)
(** ** build_model *)
(* ===================================================================== *)

Definition PARAMS : Params :=
  {| max_depth := 4;
     min_child_weight := 60;
     eta := 1 # 100;
     colsample_bytree := 8 # 10;
     subsample := 8 # 10;
     objective := "multi:softprob";
     num_class := 2 |}.

Definition EPOCHS : Z := 5000.

Section BuildModel.
Context {T : Toolkit}.

(** One pass through the body of the [for] loop after the split: the row
    appended to [metrics_list] and the value left in [outcomes]. *)
Definition fold_body (sp : Split) : result (list num * list Z) :=
  let x_matrix := {| dm_data := x_train sp; dm_label := y_train sp |} in
  let y_matrix := {| dm_data := x_test sp; dm_label := y_test sp |} in
  let* xgb_model := xgb_train PARAMS x_matrix EPOCHS in
  let* preds := xgb_predict xgb_model y_matrix in
  let outcomes := map argmax preds in
  let* comb := combined (y_test sp) outcomes in
  let ct := crosstab comb in
  let* p := precision_score (y_test sp) outcomes in
  let precision := percent p in
  let* a := accuracy_score (y_test sp) outcomes in
  let accuracy := percent a in
  let* l := log_loss flog eps (y_test sp) outcomes in
  let logloss := round4 l in
  let* r := roc_auc_score (y_test sp) outcomes in
  let roc := percent r in
  let* rc := recall_score (y_test sp) outcomes in
  let recall := percent rc in
  let* cc := confusion_counts ct in
  let correct := fst cc in
  let incorrect := snd cc in
  let game_count := Z.of_nat (length outcomes) in
  let arr := [Float precision; Float recall; Float accuracy; Float logloss;
              Float roc; Int correct; Int incorrect; Int game_count] in
  Ok (arr, outcomes).

(** The integer and the float a row holds at position [j]. *)
Definition int_field (j : nat) (row : list num) : Z :=
  match nth j row (Int 0) with
  | Int z => z
  | Float _ => 0
  end.

Definition float_field (j : nat) (row : list num) : Q :=
  num_to_Q (nth j row (Int 0)).

(** A row with the eight fields in the order of [arr.extend]: five floats
    followed by three integers. *)
Definition is_metrics_row (row : list num) : Prop :=
  exists precision recall accuracy logloss roc correct incorrect game_count,
    row = [Float precision; Float recall; Float accuracy; Float logloss;
           Float roc; Int correct; Int incorrect; Int game_count].

(** The variables that outlive the loop: [metrics_list], and the split and
    [outcomes] of the latest iteration (unbound before the first one). *)
Record LoopState : Type := {
  metrics_list : list (list num);
  latest : option (Split * list Z)
}.

Definition loop_init : LoopState := {| metrics_list := []; latest := None |}.

(** [n] further iterations of the loop. *)
Fixpoint cv_loop (n : nat) (X : DataFrame) (y : list Z)
    (st : LoopState) (w : rng) : result LoopState * rng :=
  match n with
  | O => (Ok st, w)
  | S n' =>
      match train_test_split X y (15 # 100) w with
      | (Raise e, w') => (Raise e, w')
      | (Ok sp, w') =>
          match fold_body sp with
          | Raise e => (Raise e, w')
          | Ok (arr, outcomes) =>
              cv_loop n' X y
                {| metrics_list := metrics_list st ++ [arr];
                   latest := Some (sp, outcomes) |} w'
          end
      end
  end.

(** The value of [return metrics_list, x_train, y_train, y_test, outcomes]. *)
Record ModelOutput : Type := {
  out_metrics : list (list num);
  out_x_train : DataFrame;
  out_y_train : list Z;
  out_y_test : list Z;
  out_outcomes : list Z
}.

Definition build_model (training_data : DataFrame) (target : list Z)
    (cv_count : nat) (w : rng) : result ModelOutput * rng :=
  match cv_loop cv_count training_data target loop_init w with
  | (Raise e, w') => (Raise e, w')
  | (Ok st, w') =>
      match latest st with
      | None => (Raise UnboundLocalError, w')
      | Some (sp, outcomes) =>
          (Ok {| out_metrics := metrics_list st;
                 out_x_train := x_train sp;
                 out_y_train := y_train sp;
                 out_y_test := y_test sp;
                 out_outcomes := outcomes |}, w')
      end
  end.

(** The generator state at the start of iteration [k] (counting from 0). *)
Fixpoint rng_at (k : nat) (X : DataFrame) (y : list Z) (w : rng) : rng :=
  match k with
  | O => w
  | S k' => rng_at k' X y (snd (train_test_split X y (15 # 100) w))
  end.

(** The split drawn in iteration [k]. *)
Definition split_at (k : nat) (X : DataFrame) (y : list Z) (w : rng)
  : result Split :=
  fst (train_test_split X y (15 # 100) (rng_at k X y w)).

(** The class probabilities predicted for the held-out rows of iteration
    [k] (lines 53-61). *)
Definition preds_at (k : nat) (X : DataFrame) (y : list Z) (w : rng)
  : result (list proba) :=
  let* sp := split_at k X y w in
  let* xgb_model :=
    xgb_train PARAMS {| dm_data := x_train sp; dm_label := y_train sp |}
              EPOCHS in
  xgb_predict xgb_model {| dm_data := x_test sp; dm_label := y_test sp |}.

(** The held-out features of iteration [k]. *)
Definition x_test_at (k : nat) (X : DataFrame) (y : list Z) (w : rng)
  : result DataFrame :=
  let* sp := split_at k X y w in Ok (x_test sp).

End BuildModel.

(* ===================================================================== *)
(** ** Frames kept in the result store *)
(* ===================================================================== *)

(** A float cell of a pandas frame: [None] is NaN. *)
Definition cell : Type := option Q.

(** One row of the summary frame, in the column order
    [["Metric", "Mean", "Min", "Max", "Std"]]. *)
Record SummaryRow : Type := {
  Metric : string;
  Mean : cell;
  Min : cell;
  Max : cell;
  Std : cell
}.

(** The summary frame: its index (the column names of the per-fold frame)
    and its rows. *)
Record SummaryTable : Type := {
  st_index : list string;
  st_rows : list SummaryRow
}.

(** A column of the feature-score frame. *)
Inductive column : Type :=
| NumCol (values : list fscore)
| TextCol (values : list string).

(** A frame of two columns, as [pd.concat([temp, columns], axis=1)] builds:
    its column labels, and its rows (first column, second column). *)
Record ScoreFrame : Type := {
  sf_labels : string * string;
  sf_rows : list (fscore * string)
}.

(** What [to_sql] leaves under a table name. *)
Inductive Stored : Type :=
| StoredSummary (t : list SummaryRow)
| StoredScores (t : ScoreFrame).

(** [frame.to_sql(name, utils.engine, if_exists="replace", ...)]. *)
Definition to_sql (name : string) (t : Stored) (db : gmap string Stored)
  : gmap string Stored :=
  <[name := t]> db.

(* ===================================================================== *)
(** ** build_metric_table *)
(* ===================================================================== *)

Definition metric_columns : list string :=
  ["Precision"; "Recall"; "Accuracy"; "Logloss"; "ROC"; "Correct";
   "Incorrect"; "Games Tested"]%string.

Definition metric_names : list string :=
  ["Precision"; "Recall"; "Accuracy"; "Logloss"; "ROC-AUC"; "Correct";
   "Incorrect"; "Games Tested"]%string.

(** [pd.DataFrame(metrics_data, columns=[...])] read column by column.
    Every row of a metrics list supplies the eight columns.  (pandas raises
    [ValueError] when the longest row has another length and pads shorter
    rows with NaN otherwise; such ragged lists are not metrics lists, and
    all of them are reported as [ValueError] here.)  The three [agg] calls
    before the loop only feed [print]. *)
Definition frame_columns (metrics_data : list (list num))
  : result (list (list Q)) :=
  if forallb (fun row => Nat.eqb (length row) 8) metrics_data
  then Ok (map (fun j => map (fun row => num_to_Q (nth j row (Int 0)))
                             metrics_data)
               (seq 0 8))
  else Raise ValueError.

(** [series.agg(np.mean)]. *)
Definition agg_mean (col : list Q) : cell :=
  match col with
  | [] => None
  | _ :: _ => Some (Qsum col / inject_Z (Z.of_nat (length col)))%Q
  end.

Definition Qmin (a b : Q) : Q := if Qlt_le_dec b a then b else a.
Definition Qmax (a b : Q) : Q := if Qlt_le_dec a b then b else a.

(** [series.agg(np.min)] and [series.agg(np.max)]. *)
Definition agg_min (col : list Q) : cell :=
  match col with
  | [] => None
  | x :: rest => Some (fold_left Qmin rest x)
  end.

Definition agg_max (col : list Q) : cell :=
  match col with
  | [] => None
  | x :: rest => Some (fold_left Qmax rest x)
  end.

(** [series.agg(np.std)]: pandas takes the sample standard deviation
    (one degree of freedom removed), NaN for fewer than two values. *)
Definition agg_std (sqrt : Q -> Q) (col : list Q) : cell :=
  match col, agg_mean col with
  | _ :: _ :: _, Some m =>
      Some (sqrt (Qsum (map (fun x => (x - m) * (x - m)) col)
                  / inject_Z (Z.of_nat (length col) - 1)))%Q
  | _, _ => None
  end.

Section Aggregation.
Context {T : Toolkit}.

(** The body of [for column in table]. *)
Definition summarise (col : list Q) : list cell :=
  [agg_mean col; agg_min col; agg_max col; agg_std fsqrt col].

Definition summary_row (name : string) (temp : list cell) : SummaryRow :=
  {| Metric := name;
     Mean := nth 0 temp None;
     Min := nth 1 temp None;
     Max := nth 2 temp None;
     Std := nth 3 temp None |}.

Definition build_metric_table (metrics_data : list (list num))
    (db : gmap string Stored) : result SummaryTable * gmap string Stored :=
  match frame_columns metrics_data with
  | Raise e => (Raise e, db)
  | Ok table =>
      let full_data := map summarise table in
      let body := map (fun nt => summary_row (fst nt) (snd nt))
                      (combine metric_names full_data) in
      (Ok {| st_index := metric_columns; st_rows := body |},
       to_sql "metric_scores" (StoredSummary body) db)
  end.

End Aggregation.

(* ===================================================================== *)
(** ** feature_scoring *)
(* ===================================================================== *)

(** Descending order on scores with NaN last, as
    [sort_values(ascending=False)] ranks them: [score_geb a b] says that
    [a] may stand before [b]. *)
Definition score_geb (a b : fscore) : bool :=
  match a, b with
  | _, FNaN => true
  | FNaN, _ => false
  | FInf, _ => true
  | _, FInf => false
  | FFin x, FFin y => Qle_bool y x
  end.

(** Descending order on text. *)
Definition text_geb (a b : string) : bool :=
  match String.compare a b with
  | Lt => false
  | _ => true
  end.

Section Sort.
Context {A : Type} (geb : A -> A -> bool).

Fixpoint insert_desc (x : A) (l : list A) : list A :=
  match l with
  | [] => [x]
  | y :: rest => if geb y x then y :: insert_desc x rest else x :: l
  end.

(** Sorting by insertion.  (pandas sorts with quicksort, which fixes no
    order among rows with equal keys; nothing below depends on that order.) *)
Definition sort_desc (l : list A) : list A :=
  fold_right insert_desc [] l.

End Sort.

(** [frame[label]]. *)
Definition sf_getitem (f : ScoreFrame) (label : string) : result column :=
  if String.eqb label (fst (sf_labels f)) then Ok (NumCol (map fst (sf_rows f)))
  else if String.eqb label (snd (sf_labels f)) then Ok (TextCol (map snd (sf_rows f)))
  else Raise KeyError.

(** [frame.sort_values([label], ascending=False).reset_index(drop=True)]:
    the rows are ordered by the column that carries the label. *)
Definition sort_values (label : string) (f : ScoreFrame) : result ScoreFrame :=
  if String.eqb label (fst (sf_labels f)) then
    Ok {| sf_labels := sf_labels f;
          sf_rows := sort_desc (fun r s => score_geb (fst r) (fst s)) (sf_rows f) |}
  else if String.eqb label (snd (sf_labels f)) then
    Ok {| sf_labels := sf_labels f;
          sf_rows := sort_desc (fun r s => text_geb (snd r) (snd s)) (sf_rows f) |}
  else Raise KeyError.

Section FeatureScoring.
Context {T : Toolkit}.

Definition feature_scoring (x_train : DataFrame) (y_train : list Z)
    (db : gmap string Stored) : result ScoreFrame * gmap string Stored :=
  match f_classif x_train y_train with
  | Raise e => (Raise e, db)
  | Ok scores_ =>
      let temp := scores_ in
      let columns := columns x_train in
      let scores := {| sf_labels := ("0", "0")%string;
                       sf_rows := combine temp columns |} in
      let scores := {| sf_labels := ("Specs", "Score")%string;
                       sf_rows := sf_rows scores |} in
      match sort_values "Specs" scores with
      | Raise e => (Raise e, db)
      | Ok scores =>
          (Ok scores, to_sql "feature_scores" (StoredScores scores) db)
      end
  end.

End FeatureScoring.

(* ===================================================================== *)
(** ** build_metric_table on binary64 values *)
(* ===================================================================== *)

(** The same function on the values pandas and numpy compute with: every
    column of the per-fold frame is a float64 column, NaN marks a missing
    cell, and the aggregates round as IEEE-754 binary64 does. *)
Module Binary64.

(** A cell of the metrics list: a Python float or a Python int. *)
Inductive num : Type :=
| Float (x : float)
| Int (z : Z).

(** The binary64 value nearest to an integer (the integer itself up to
    2^53). *)
Definition of_Z (z : Z) : float :=
  SF2Prim (binary_normalize prec emax z 0 false).

Definition num_to_f64 (n : num) : float :=
  match n with
  | Float x => x
  | Int z => of_Z z
  end.

(** *** numpy's sum of a contiguous float64 array

    Fewer than eight values are added one after the other; up to 128 values
    go through eight running lanes that are then added as a tree, the last
    [n mod 8] values one after the other; longer arrays are cut in two at
    a multiple of eight. *)
Definition sum_loop (res : float) (a : list float) : float :=
  fold_left PrimFloat.add a res.

Definition add_lanes (r a : list float) : list float :=
  map (fun p => PrimFloat.add (fst p) (snd p)) (combine r a).

Fixpoint unrolled (blocks : nat) (r a : list float)
  : list float * list float :=
  match blocks with
  | O => (r, a)
  | S b => unrolled b (add_lanes r (firstn 8 a)) (skipn 8 a)
  end.

Definition sum_block (a : list float) : float :=
  let n := length a in
  if (n <? 8)%nat then sum_loop 0%float a
  else
    let ra := unrolled (n / 8 - 1) (firstn 8 a) (skipn 8 a) in
    let r := fun j => nth j (fst ra) 0%float in
    let res := (((r 0%nat + r 1%nat) + (r 2%nat + r 3%nat))
                + ((r 4%nat + r 5%nat) + (r 6%nat + r 7%nat)))%float in
    sum_loop res (snd ra).

(** The recursion on halves; [fuel] bounds its depth, and the length of
    the array is always enough. *)
Fixpoint pairwise_sum (fuel : nat) (a : list float) : float :=
  match fuel with
  | O => sum_block a
  | S fuel' =>
      let n := length a in
      if (128 <? n)%nat then
        let n2 := (n / 2 - (n / 2) mod 8)%nat in
        (pairwise_sum fuel' (firstn n2 a)
         + pairwise_sum fuel' (skipn n2 a))%float
      else sum_block a
  end.

Definition np_sum (a : list float) : float := pairwise_sum (length a) a.

(** [np.minimum.reduce] and [np.maximum.reduce]. *)
Definition np_min (a : list float) : float :=
  match a with
  | [] => nan
  | x :: rest =>
      fold_left (fun io1 in2 =>
                   if (io1 <=? in2)%float || is_nan io1 then io1 else in2)
                rest x
  end.

Definition np_max (a : list float) : float :=
  match a with
  | [] => nan
  | x :: rest =>
      fold_left (fun io1 in2 =>
                   if (in2 <=? io1)%float || is_nan io1 then io1 else in2)
                rest x
  end.

(** *** The pandas reductions, which skip NaN *)

Definition count (col : list float) : nat :=
  length (List.filter (fun x => negb (is_nan x)) col).

Definition fill (v : float) (col : list float) : list float :=
  map (fun x => if is_nan x then v else x) col.

(** [series.agg(np.mean)]: the sum with NaN counted as zero, divided by the
    number of values that are not NaN. *)
Definition agg_mean (col : list float) : float :=
  if Nat.eqb (count col) 0 then nan
  else (np_sum (fill 0 col) / of_Z (Z.of_nat (count col)))%float.

(** [series.agg(np.min)] and [series.agg(np.max)]. *)
Definition agg_min (col : list float) : float :=
  if Nat.eqb (count col) 0 then nan else np_min (fill infinity col).

Definition agg_max (col : list float) : float :=
  if Nat.eqb (count col) 0 then nan else np_max (fill neg_infinity col).

(** [series.agg(np.std)] with [ddof] degrees of freedom removed: one where
    pandas maps [np.std] to [Series.std] (before pandas 3), none where it
    applies [np.std] as given. *)
Definition agg_std (ddof : nat) (col : list float) : float :=
  let n := count col in
  if (n <=? ddof)%nat then nan
  else
    let avg := (np_sum (fill 0 col) / of_Z (Z.of_nat n))%float in
    let sqr := map (fun x => if is_nan x then 0%float
                             else ((avg - x) * (avg - x))%float) col in
    PrimFloat.sqrt (np_sum sqr / of_Z (Z.of_nat (n - ddof)))%float.

(** *** The frames *)

Record SummaryRow : Type := {
  Metric : string;
  Mean : float;
  Min : float;
  Max : float;
  Std : float
}.

Record SummaryTable : Type := {
  st_index : list string;
  st_rows : list SummaryRow
}.

(** [pd.DataFrame(metrics_data, columns=[...])] read column by column: the
    rows are padded with NaN to the longest one, and a longest row of
    another length than eight is a [ValueError]. *)
Definition frame_columns (metrics_data : list (list num))
  : result (list (list float)) :=
  match metrics_data with
  | [] => Ok (map (fun _ => []) (seq 0 8))
  | _ :: _ =>
      if Nat.eqb (list_max (map (@length num) metrics_data)) 8
      then Ok (map (fun j => map (fun row => match nth_error row j with
                                             | Some v => num_to_f64 v
                                             | None => nan
                                             end)
                                 metrics_data)
                   (seq 0 8))
      else Raise ValueError
  end.

(** The body of [for column in table]. *)
Definition summarise (ddof : nat) (col : list float) : list float :=
  [agg_mean col; agg_min col; agg_max col; agg_std ddof col].

Definition summary_row (name : string) (temp : list float) : SummaryRow :=
  {| Metric := name;
     Mean := nth 0 temp nan;
     Min := nth 1 temp nan;
     Max := nth 2 temp nan;
     Std := nth 3 temp nan |}.

Definition build_metric_table (ddof : nat) (metrics_data : list (list num))
    (db : gmap string (list SummaryRow))
  : result SummaryTable * gmap string (list SummaryRow) :=
  match frame_columns metrics_data with
  | Raise e => (Raise e, db)
  | Ok table =>
      let full_data := map (summarise ddof) table in
      let body := map (fun nt => summary_row (fst nt) (snd nt))
                      (combine metric_names full_data) in
      (Ok {| st_index := metric_columns; st_rows := body |},
       <["metric_scores"%string := body]> db)
  end.

(** *** Two metrics lists *)




End Binary64.

(* ===================================================================== *)
(** ** A small deterministic toolkit *)
(* ===================================================================== *)

(** An instance of [Toolkit] that can be run: the split takes the rows in
    rotated order, the learner reads the first feature as the probability of
    class 1, and the logarithm and square root are rational stand-ins. *)
Module Demo.

Definition n_test (test_size : Q) (n : nat) : nat :=
  Z.to_nat (Qceiling (test_size * inject_Z (Z.of_nat n))).

Definition rotate {A : Type} (k : nat) (l : list A) : list A :=
  skipn (k mod length l) l ++ firstn (k mod length l) l.

Definition split (X : DataFrame) (y : list Z) (test_size : Q) (w : nat)
  : result Split * nat :=
  let n := length (rows X) in
  let k := n_test test_size n in
  if negb (Nat.eqb n (length y)) then (Raise ValueError, w)
  else if Nat.leb n k then (Raise ValueError, w)
  else
    let rx := rotate w (rows X) in
    let ry := rotate w y in
    (Ok {| x_train := {| columns := columns X; rows := skipn k rx |};
           x_test := {| columns := columns X; rows := firstn k rx |};
           y_train := skipn k ry;
           y_test := firstn k ry |}, S w).

Definition train (p : Params) (d : DMatrix) (rounds : Z) : result unit :=
  if forallb (fun l => (l =? 0) || (l =? 1)) (dm_label d)
  then Ok tt else Raise XGBoostError.

Definition predict (b : unit) (d : DMatrix) : result (list proba) :=
  Ok (map (fun row => let p := clip (1 # 10) (nth 0 row 0%Q) in
                      ((1 - p)%Q, p))
          (rows (dm_data d))).

Definition ln (x : Q) : Q := (x - 1)%Q.

Definition sqrt (x : Q) : Q := ((x + 1) / 2)%Q.

Definition column_sum (j : nat) (X : DataFrame) (y : list Z) (label : Z) : Q :=
  Qsum (map (fun ry => if snd ry =? label then nth j (fst ry) 0%Q else 0%Q)
            (combine (rows X) y)).

Definition f_test (X : DataFrame) (y : list Z) : result (list fscore) :=
  if negb (Nat.eqb (length (rows X)) (length y)) then Raise ValueError
  else Ok (map (fun j => let d := (column_sum j X y 1 - column_sum j X y 0)%Q in
                         FFin (d * d)%Q)
               (seq 0 (length (columns X)))).

Lemma eps_ok : (0 < 1 # 1000000000000000 /\ 1 # 1000000000000000 < 1)%Q.
Proof. split; reflexivity. Qed.

Lemma ln_nonpos (x : Q) : (0 < x)%Q -> (x <= 1)%Q -> (ln x <= 0)%Q.
Proof. intros _ H. unfold ln. lra. Qed.

Lemma f_test_length (X : DataFrame) (y : list Z) (s : list fscore) :
  f_test X y = Ok s -> length s = length (columns X).
Proof.
  unfold f_test. destruct (negb _); intros H; inversion H.
  rewrite length_map, length_seq. reflexivity.
Qed.

Definition toolkit : Toolkit :=
  {| rng := nat;
     booster := unit;
     train_test_split := split;
     xgb_train := train;
     xgb_predict := predict;
     flog := ln;
     fsqrt := sqrt;
     eps := 1 # 1000000000000000;
     f_classif := f_test;
     eps_range := eps_ok;
     flog_nonpos := ln_nonpos;
     f_classif_length := f_test_length |}.

(** Fourteen games with two features; the first feature is the learner's
    probability of a home win. *)
Definition games : DataFrame :=
  {| columns := ["H_NET_RATING"; "A_NET_RATING"]%string;
     rows := [[9 # 10; 1]; [2 # 10; 2]; [4 # 10; 3]; [7 # 10; 4];
              [8 # 10; 5]; [1 # 10; 6]; [6 # 10; 7]; [3 # 10; 8];
              [9 # 10; 9]; [2 # 10; 10]; [8 # 10; 11]; [1 # 10; 12];
              [7 # 10; 13]; [3 # 10; 14]]%Q |}.

Definition outcome : list Z := [1; 0; 1; 0; 1; 0; 1; 0; 1; 0; 1; 0; 1; 0].

(** A season in which the home side never wins. *)
Definition no_home_win : list Z := [0; 0; 0; 0; 0; 0; 0; 0; 0; 0; 0; 0; 0; 0].

(** [games] with another second feature in the fourth game. *)
Definition games_alt : DataFrame :=
  {| columns := ["H_NET_RATING"; "A_NET_RATING"]%string;
     rows := [[9 # 10; 1]; [2 # 10; 2]; [4 # 10; 3]; [7 # 10; 40];
              [8 # 10; 5]; [1 # 10; 6]; [6 # 10; 7]; [3 # 10; 8];
              [9 # 10; 9]; [2 # 10; 10]; [8 # 10; 11]; [1 # 10; 12];
              [7 # 10; 13]; [3 # 10; 14]]%Q |}.

(** [games] with the learner less sure of itself in the first three
    games: every probability stays on its side of one half. *)
Definition games_soft : DataFrame :=
  {| columns := ["H_NET_RATING"; "A_NET_RATING"]%string;
     rows := [[6 # 10; 1]; [4 # 10; 2]; [3 # 10; 3]; [7 # 10; 4];
              [8 # 10; 5]; [1 # 10; 6]; [6 # 10; 7]; [3 # 10; 8];
              [9 # 10; 9]; [2 # 10; 10]; [8 # 10; 11]; [1 # 10; 12];
              [7 # 10; 13]; [3 # 10; 14]]%Q |}.

(** Three iterations over [games], from generator state 0. *)
Definition run3 : result ModelOutput * nat :=
  Eval vm_compute in @build_model toolkit games outcome 3 0%nat.

Definition out3 : ModelOutput :=
  Eval vm_compute in
    match fst run3 with
    | Ok o => o
    | Raise _ =>
        {| out_metrics := []; out_x_train := games; out_y_train := [];
           out_y_test := []; out_outcomes := [] |}
    end.

Definition out3_soft : ModelOutput :=
  Eval vm_compute in
    match fst (@build_model toolkit games_soft outcome 3 0%nat) with
    | Ok o => o
    | Raise _ => out3
    end.

(** The probabilities predicted for the held-out games of the first
    iteration, for [games] and for [games_soft]; the held-out labels are
    [[1; 0; 1]]. *)
Definition preds0 : list proba :=
  [(1 # 10, 9 # 10); (8 # 10, 2 # 10); (6 # 10, 4 # 10)]%Q.

Definition preds0_soft : list proba :=
  [(4 # 10, 6 # 10); (6 # 10, 4 # 10); (7 # 10, 3 # 10)]%Q.

(** The row of the second iteration. *)
Definition row1 : list num :=
  Eval vm_compute in nth 1 (out_metrics out3) [].

(** The summary of the three rows of [out3], written to an empty store. *)
Definition summary3 : SummaryTable :=
  Eval vm_compute in
    match fst (@build_metric_table toolkit (out_metrics out3) ∅) with
    | Ok t => t
    | Raise _ => {| st_index := []; st_rows := [] |}
    end.

(** A frame whose two columns carry the same label. *)
Definition twins : DataFrame :=
  {| columns := ["A_PIE"; "A_PIE"]%string;
     rows := [[1; 2]; [3; 5]]%Q |}.

(** The feature scores of [games], written to an empty store. *)
Definition scores : ScoreFrame :=
  Eval vm_compute in
    match fst (@feature_scoring toolkit games outcome ∅) with
    | Ok t => t
    | Raise _ => {| sf_labels := (""%string, ""%string); sf_rows := [] |}
    end.

End Demo.

(* ===================================================================== *)
(** ** The rest of the script *)
(* ===================================================================== *)

Section Folds.
Context {T : Toolkit}.

(** Iteration [k] of the loop of [build_model] on its own: the split drawn
    in that iteration, then the body. *)
Definition fold_at (k : nat) (X : DataFrame) (y : list Z) (w : rng)
  : result (list num * list Z) :=
  let* sp := split_at k X y w in fold_body sp.

(** Lines 316-318 of the script: the model is built with the default five
    folds, its metrics list is summarised, and the features of the final
    training part are scored.  (The two plots and the prints that follow
    are not modelled.) *)
Definition main_tables (data : DataFrame) (outcome : list Z) (w : rng)
    (db : gmap string Stored)
  : result (SummaryTable * ScoreFrame * list Z * list Z)
    * rng * gmap string Stored :=
  match build_model data outcome 5 w with
  | (Raise e, w') => (Raise e, w', db)
  | (Ok out, w') =>
      let metrics := out_metrics out in
      let training := out_x_train out in
      let testing := out_y_train out in
      let actuals := out_y_test out in
      let predictions := out_outcomes out in
      match build_metric_table metrics db with
      | (Raise e, db1) => (Raise e, w', db1)
      | (Ok metric_table, db1) =>
          match feature_scoring training testing db1 with
          | (Raise e, db2) => (Raise e, w', db2)
          | (Ok scores_table, db2) =>
              (Ok (metric_table, scores_table, actuals, predictions), w', db2)
          end
      end
  end.

End Folds.

(** Column [j] of the per-fold frame, as [build_metric_table] reads it. *)
Definition metric_column (j : nat) (metrics_data : list (list num)) : list Q :=
  map (float_field j) metrics_data.

(** The summary rows, one per column of the per-fold frame. *)
Definition summary_rows {T : Toolkit} (metrics_data : list (list num))
  : list SummaryRow :=
  map (fun jn => summary_row (snd jn)
                   (summarise (metric_column (fst jn) metrics_data)))
      (combine (seq 0 8) metric_names).

(** The mean, minimum and maximum of a summary row are numbers between
    [lo] and [hi], the minimum not above the maximum. *)
Definition summary_within (lo hi : Q) (r : SummaryRow) : Prop :=
  exists mean mn mx,
    Mean r = Some mean /\ Min r = Some mn /\ Max r = Some mx /\
    (lo <= mn)%Q /\ (mn <= mx)%Q /\ (mx <= hi)%Q /\
    (lo <= mean)%Q /\ (mean <= hi)%Q.

(** The same with a lower bound only. *)
Definition summary_above (lo : Q) (r : SummaryRow) : Prop :=
  exists mean mn mx,
    Mean r = Some mean /\ Min r = Some mn /\ Max r = Some mx /\
    (lo <= mn)%Q /\ (mn <= mx)%Q /\ (lo <= mean)%Q.

(** *** Preparing the frame (lines 293-314) *)

(** The position of a column label.  ([pd.read_csv] hands out distinct
    labels, so a label names one column.) *)
Fixpoint index_of (name : string) (labels : list string) : option nat :=
  match labels with
  | [] => None
  | l :: rest =>
      if String.eqb name l then Some O else option_map S (index_of name rest)
  end.

(** [frame[name]]. *)
Definition getitem (df : DataFrame) (name : string) : result (list Q) :=
  match index_of name (columns df) with
  | Some j => Ok (map (fun row => nth j row 0%Q) (rows df))
  | None => Raise KeyError
  end.

(** [frame.loc[mask].reset_index(drop=True)], row by row. *)
Fixpoint loc_rows (mask : list bool) (rws : list (list Q)) : list (list Q) :=
  match mask, rws with
  | b :: mask', r :: rws' =>
      if b then r :: loc_rows mask' rws' else loc_rows mask' rws'
  | _, _ => []
  end.

Fixpoint positions (names labels : list string) : result (list nat) :=
  match names with
  | [] => Ok []
  | n :: names' =>
      match index_of n labels with
      | None => Raise KeyError
      | Some j => let* js := positions names' labels in Ok (j :: js)
      end
  end.

(** [frame[[names...]]]. *)
Definition select (names : list string) (df : DataFrame) : result DataFrame :=
  let* js := positions names (columns df) in
  Ok {| columns := names;
        rows := map (fun row => map (fun j => nth j row 0%Q) js) (rows df) |}.

Definition FEATURES : list string :=
  ["A_Massey"; "H_Massey"; "H_NET_RATING"; "A_NET_RATING"; "A_PIE"; "H_PIE";
   "A_TS_PCT"; "H_TS_PCT"; "A_FGM"; "H_FGM"; "A_DREB"; "H_DREB"]%string.

(** From the frame read from the CSV file to the arguments of
    [build_model]: games with a zero ["A_Massey"] are dropped, the label
    column is taken from what remains, and the twelve features are kept.
    (Cells are numbers; missing values are outside the model.) *)
Definition prepare (data : DataFrame) : result (DataFrame * list Q) :=
  let* a_massey := getitem data "A_Massey" in
  let mask := map (fun v => negb (Qeq_bool v 0)) a_massey in
  let data := {| columns := columns data;
                 rows := loc_rows mask (rows data) |} in
  let* outcome := getitem data "Outcome" in
  let* data := select FEATURES data in
  Ok (data, outcome).

(** *** The parameter list of [hyperparameter_tuning] (lines 181-201) *)

(** [list.remove(x)]: the first occurrence goes; [ValueError] without one. *)
Fixpoint list_remove (x : string) (l : list string) : result (list string) :=
  match l with
  | [] => Raise ValueError
  | h :: rest =>
      if String.eqb h x then Ok rest
      else let* rest' := list_remove x rest in Ok (h :: rest')
  end.

(** [["param_" + params for params in grid] + ["mean_test_score"]], from the
    keys of [utils.xgb_narrow_grid] in their order. *)
Definition search_columns (grid_keys : list string) : list string :=
  map (String.append "param_") grid_keys ++ ["mean_test_score"%string].

(** The list the report loop runs over, after
    [parameters.remove("mean_test_score")]. *)
Definition report_columns (grid_keys : list string) : result (list string) :=
  list_remove "mean_test_score" (search_columns grid_keys).

(** A frame as it may come from the CSV file, for running [prepare]. *)
Module Season.

Definition raw : DataFrame :=
  {| columns := ["Outcome"; "A_Massey"; "H_Massey"; "H_NET_RATING";
                 "A_NET_RATING"; "A_PIE"; "H_PIE"; "A_TS_PCT"; "H_TS_PCT";
                 "A_FGM"; "H_FGM"; "A_DREB"; "H_DREB"; "A_RANK"]%string;
     rows := [[1; 3; 5; 2; 1; 1 # 2; 1 # 2; 1 # 2; 1 # 2; 40; 41; 30; 31; 7];
              [0; 0; 4; 1; 2; 1 # 2; 1 # 2; 1 # 2; 1 # 2; 39; 42; 29; 33; 9];
              [0; 6; 2; 0; 3; 1 # 2; 1 # 2; 1 # 2; 1 # 2; 38; 40; 35; 30; 2]]%Q |}.

Definition prepared : DataFrame * list Q :=
  Eval vm_compute in
    match prepare raw with
    | Ok r => r
    | Raise _ => (raw, [])
    end.

(** Labels for [Demo.games] with three home defeats in a row. *)
Definition streak : list Z := [1; 0; 0; 0; 1; 0; 1; 0; 1; 0; 1; 0; 1; 0].

(** The value of lines 316-318 on [Demo.games], from generator state 0 and
    an empty store. *)
Definition tables
  : result (SummaryTable * ScoreFrame * list Z * list Z) :=
  Eval vm_compute in
    fst (fst (main_tables (T := Demo.toolkit) Demo.games Demo.outcome 0%nat ∅)).

Definition tables_value : SummaryTable * ScoreFrame * list Z * list Z :=
  Eval vm_compute in
    match tables with
    | Ok v => v
    | Raise _ => (Demo.summary3, Demo.scores, [], [])
    end.

Definition well_formed : list (list num) :=
  [[Float 50; Float 40; Float 60; Float (1 # 2); Float 55; Int 3; Int 2; Int 5];
   [Float 70; Float 60; Float 80; Float (1 # 4); Float 75; Int 4; Int 1; Int 5]].

(** A list whose longest row has nine fields. *)
Definition too_wide : list (list num) :=
  [[Float 50; Float 40; Float 60; Float (1 # 2); Float 55; Int 3; Int 2; Int 5];
   [Float 70; Float 60; Float 80; Float (1 # 4); Float 75; Int 4; Int 1; Int 5;
    Int 0]].

End Season.

(* ===================================================================== *)
(** * Properties *)
(* ===================================================================== *)

(** ** Exceptions *)

Lemma bind_ok {A B : Type} (r : result A) (k : A -> result B) (b : B) :
  bind r k = Ok b -> exists a, r = Ok a /\ k a = Ok b.
Proof.
  destruct r as [a | e]; simpl; intros H.
  - exists a. split; [reflexivity | exact H].
  - discriminate H.
Qed.

Ltac bind_inv H :=
  let a := fresh "v" in
  let Ha := fresh "E" in
  apply bind_ok in H; destruct H as (a & Ha & H).

(** ** Rounding *)

Lemma round_half_even_lower (q : Q) (a : Z) :
  (inject_Z a <= q)%Q -> a <= round_half_even q.
Proof.
  intros Ha.
  assert (Hf : a <= Qfloor q).
  { rewrite <- (Qfloor_Z a). apply Qfloor_resp_le. exact Ha. }
  unfold round_half_even.
  destruct (q - inject_Z (Qfloor q) ?= 1 # 2)%Q; [destruct (Z.even _) | |]; lia.
Qed.

Lemma round_half_even_upper (q : Q) (b : Z) :
  (q <= inject_Z b)%Q -> round_half_even q <= b.
Proof.
  intros Hb.
  assert (Hf : Qfloor q <= b).
  { rewrite <- (Qfloor_Z b). apply Qfloor_resp_le. exact Hb. }
  destruct (Z.eq_dec (Qfloor q) b) as [Heq | Hne].
  - assert (Hd : (q - inject_Z (Qfloor q) < 1 # 2)%Q).
    { rewrite Heq. lra. }
    unfold round_half_even.
    destruct (q - inject_Z (Qfloor q) ?= 1 # 2)%Q eqn:Hc.
    + apply Qeq_alt in Hc. lra.
    + lia.
    + apply Qgt_alt in Hc. lra.
  - unfold round_half_even.
    destruct (q - inject_Z (Qfloor q) ?= 1 # 2)%Q; [destruct (Z.even _) | |]; lia.
Qed.

Lemma round4_unit (x : Q) :
  (0 <= x)%Q -> (x <= 1)%Q -> (0 <= round4 x)%Q /\ (round4 x <= 1)%Q.
Proof.
  intros H0 H1. unfold round4.
  assert (Hlo : 0 <= round_half_even (x * 10000)).
  { apply round_half_even_lower. change (inject_Z 0) with 0%Q. lra. }
  assert (Hhi : round_half_even (x * 10000) <= 10000).
  { apply round_half_even_upper. change (inject_Z 10000) with 10000%Q. lra. }
  set (k := round_half_even (x * 10000)) in *.
  assert (Hlo' : (inject_Z 0 <= inject_Z k)%Q) by (rewrite <- Zle_Qle; exact Hlo).
  assert (Hhi' : (inject_Z k <= inject_Z 10000)%Q) by (rewrite <- Zle_Qle; exact Hhi).
  change (inject_Z 0) with 0%Q in Hlo'.
  change (inject_Z 10000) with 10000%Q in Hhi'.
  generalize dependent (inject_Z k). intros r Hr0 Hr1.
  unfold Qdiv. change (/ 10000)%Q with (1 # 10000)%Q.
  split; lra.
Qed.

Lemma round4_nonneg (x : Q) : (0 <= x)%Q -> (0 <= round4 x)%Q.
Proof.
  intros H0. unfold round4.
  assert (Hlo : 0 <= round_half_even (x * 10000)).
  { apply round_half_even_lower. change (inject_Z 0) with 0%Q. lra. }
  assert (Hlo' : (inject_Z 0 <= inject_Z (round_half_even (x * 10000)))%Q)
    by (rewrite <- Zle_Qle; exact Hlo).
  change (inject_Z 0) with 0%Q in Hlo'.
  generalize dependent (inject_Z (round_half_even (x * 10000))). intros r Hr0.
  unfold Qdiv. change (/ 10000)%Q with (1 # 10000)%Q. lra.
Qed.

Lemma percent_range (x : Q) :
  (0 <= x)%Q -> (x <= 1)%Q -> (0 <= percent x)%Q /\ (percent x <= 100)%Q.
Proof.
  intros H0 H1. destruct (round4_unit x H0 H1) as [Ha Hb].
  unfold percent. split; lra.
Qed.

(** ** Counting *)

Lemma count_if_nonneg (f : Z * Z -> bool) (obs : list (Z * Z)) :
  0 <= count_if f obs.
Proof. unfold count_if. lia. Qed.

Lemma count_if_le (f g : Z * Z -> bool) (obs : list (Z * Z)) :
  (forall o, f o = true -> g o = true) -> count_if f obs <= count_if g obs.
Proof.
  intros Hfg. unfold count_if. apply inj_le.
  induction obs as [| o obs IH]; simpl; [lia |].
  destruct (f o) eqn:Hf.
  - rewrite (Hfg o Hf). simpl. lia.
  - destruct (g o); simpl; lia.
Qed.

Lemma count_if_length (f : Z * Z -> bool) (obs : list (Z * Z)) :
  count_if f obs <= Z.of_nat (length obs).
Proof.
  unfold count_if. apply inj_le.
  induction obs as [| o obs IH]; simpl; [lia |].
  destruct (f o); simpl; lia.
Qed.

Lemma ratio_range (a b : Z) :
  0 <= a <= b -> (0 <= ratio a b)%Q /\ (ratio a b <= 1)%Q.
Proof.
  intros [Ha Hab]. unfold ratio.
  destruct (b =? 0) eqn:Hb; [split; lra |].
  apply Z.eqb_neq in Hb.
  assert (Hpos : (0 < inject_Z b)%Q).
  { change 0%Q with (inject_Z 0). rewrite <- Zlt_Qlt. lia. }
  split.
  - apply Qle_shift_div_l; [exact Hpos |].
    rewrite Qmult_0_l. change 0%Q with (inject_Z 0). rewrite <- Zle_Qle. exact Ha.
  - apply Qle_shift_div_r; [exact Hpos |].
    rewrite Qmult_1_l. rewrite <- Zle_Qle. exact Hab.
Qed.

Lemma andb_true_r_imp (a b : bool) : a && b = true -> b = true.
Proof. destruct a, b; simpl; intros H; congruence. Qed.

Lemma andb_true_l_imp (a b : bool) : a && b = true -> a = true.
Proof. destruct a, b; simpl; intros H; congruence. Qed.

(** ** Ranges of the scikit-learn metrics *)

Lemma precision_score_range (y_true y_pred : list Z) (p : Q) :
  precision_score y_true y_pred = Ok p -> (0 <= p)%Q /\ (p <= 1)%Q.
Proof.
  unfold precision_score. intros H. bind_inv H. inversion H; subst p.
  apply ratio_range. split; [apply count_if_nonneg |].
  apply count_if_le. intros o. apply andb_true_r_imp.
Qed.

Lemma recall_score_range (y_true y_pred : list Z) (p : Q) :
  recall_score y_true y_pred = Ok p -> (0 <= p)%Q /\ (p <= 1)%Q.
Proof.
  unfold recall_score. intros H. bind_inv H. inversion H; subst p.
  apply ratio_range. split; [apply count_if_nonneg |].
  apply count_if_le. intros o. apply andb_true_l_imp.
Qed.

Lemma accuracy_score_range (y_true y_pred : list Z) (p : Q) :
  accuracy_score y_true y_pred = Ok p -> (0 <= p)%Q /\ (p <= 1)%Q.
Proof.
  unfold accuracy_score. intros H. bind_inv H. inversion H; subst p.
  apply ratio_range. split; [apply count_if_nonneg | apply count_if_length].
Qed.

Lemma roc_auc_score_range (y_true y_score : list Z) (p : Q) :
  roc_auc_score y_true y_score = Ok p -> (0 <= p)%Q /\ (p <= 1)%Q.
Proof.
  unfold roc_auc_score. intros H. bind_inv H.
  destruct (negb _); [discriminate H |]. inversion H; subst p. clear H.
  set (obs := combine y_true y_score).
  assert (Ht : (0 <= ratio (true_pos obs) (actual_pos obs))%Q
               /\ (ratio (true_pos obs) (actual_pos obs) <= 1)%Q).
  { apply ratio_range. split; [apply count_if_nonneg |].
    apply count_if_le. intros o. apply andb_true_l_imp. }
  assert (Hf : (0 <= ratio (false_pos obs) (actual_neg obs))%Q
               /\ (ratio (false_pos obs) (actual_neg obs) <= 1)%Q).
  { apply ratio_range. split; [apply count_if_nonneg |].
    apply count_if_le. intros o. apply andb_true_l_imp. }
  destruct Ht as [Ht0 Ht1]. destruct Hf as [Hf0 Hf1].
  generalize dependent (ratio (true_pos obs) (actual_pos obs)).
  generalize dependent (ratio (false_pos obs) (actual_neg obs)).
  intros f Hf0 Hf1 t Ht0 Ht1.
  unfold Qdiv. change (/ 2)%Q with (1 # 2)%Q. split; lra.
Qed.

Lemma clip_unit (e p : Q) :
  (0 < e)%Q -> (e < 1)%Q -> (0 < clip e p)%Q /\ (clip e p < 1)%Q.
Proof.
  intros H0 H1. unfold clip.
  destruct (Qlt_le_dec p e); [split; lra |].
  destruct (Qlt_le_dec (1 - e) p); split; lra.
Qed.

Lemma likelihood_unit (e : Q) (o : Z * Z) :
  (0 < e)%Q -> (e < 1)%Q -> (0 < likelihood e o)%Q /\ (likelihood e o <= 1)%Q.
Proof.
  intros H0 H1. unfold likelihood.
  destruct (clip_unit e (inject_Z (snd o)) H0 H1) as [Ha Hb].
  destruct (fst o =? 1); split; lra.
Qed.

Lemma Qsum_nonpos (l : list Q) :
  Forall (fun x => (x <= 0)%Q) l -> (Qsum l <= 0)%Q.
Proof.
  induction 1 as [| x l Hx _ IH]; simpl; lra.
Qed.

Lemma log_loss_nonneg (ln : Q -> Q) (e : Q) (y_true y_pred : list Z) (l : Q) :
  (0 < e)%Q -> (e < 1)%Q ->
  (forall x : Q, (0 < x)%Q -> (x <= 1)%Q -> (ln x <= 0)%Q) ->
  log_loss ln e y_true y_pred = Ok l -> (0 <= l)%Q.
Proof.
  intros H0 H1 Hln H. unfold log_loss in H. bind_inv H.
  destruct (negb _); [discriminate H |]. inversion H; subst l. clear H.
  set (obs := combine y_true y_pred).
  assert (Hs : (Qsum (map (fun o => ln (likelihood e o)) obs) <= 0)%Q).
  { apply Qsum_nonpos. apply List.Forall_map. apply List.Forall_forall. intros o _.
    destruct (likelihood_unit e o H0 H1) as [Ha Hb]. apply Hln; assumption. }
  assert (Hn : (0 <= / inject_Z (Z.of_nat (length obs)))%Q).
  { apply Qinv_le_0_compat. change 0%Q with (inject_Z 0).
    rewrite <- Zle_Qle. lia. }
  unfold Qdiv.
  generalize dependent (Qsum (map (fun o => ln (likelihood e o)) obs)).
  generalize dependent (/ inject_Z (Z.of_nat (length obs)))%Q.
  intros n Hn s Hs.
  assert (Hp : (0 <= (- s) * n)%Q) by (apply Qmult_le_0_compat; lra).
  apply Qle_trans with ((- s) * n)%Q; [exact Hp |].
  apply Qle_lteq. right. ring.
Qed.

(** ** The cross-tabulation *)

Lemma mem_In (z : Z) (l : list Z) : mem z l = true <-> In z l.
Proof.
  unfold mem. rewrite existsb_exists. split.
  - intros (x & Hx & He). apply Z.eqb_eq in He. subst x. exact Hx.
  - intros H. exists z. split; [exact H | apply Z.eqb_refl].
Qed.

Lemma mem_nodup (z : Z) (l : list Z) : mem z (nodup Z.eq_dec l) = mem z l.
Proof.
  destruct (mem z l) eqn:H.
  - apply mem_In. apply nodup_In. apply mem_In. exact H.
  - destruct (mem z (nodup Z.eq_dec l)) eqn:H'; [| reflexivity].
    apply mem_In in H'. apply nodup_In in H'. apply mem_In in H'. congruence.
Qed.

Lemma ct_at_crosstab (obs : list (Z * Z)) (c r : Z) :
  ct_at (crosstab obs) c r =
  if mem c (map snd obs) && mem r (map fst obs)
  then Ok (count_pairs r c obs) else Raise KeyError.
Proof.
  unfold ct_at, ct_getitem, cc_getitem, crosstab. simpl.
  rewrite mem_nodup. destruct (mem c (map snd obs)); simpl; [| reflexivity].
  rewrite mem_nodup. reflexivity.
Qed.

Lemma confusion_counts_crosstab (obs : list (Z * Z)) :
  confusion_counts (crosstab obs) =
  if both_classes (map fst obs) && both_classes (map snd obs)
  then Ok (count_pairs 0 0 obs + count_pairs 1 1 obs,
           count_pairs 1 0 obs + count_pairs 0 1 obs)
  else Raise KeyError.
Proof.
  unfold confusion_counts, both_classes. rewrite !ct_at_crosstab.
  destruct (mem 0 (map fst obs)), (mem 1 (map fst obs)),
    (mem 0 (map snd obs)), (mem 1 (map snd obs)); reflexivity.
Qed.

Lemma four_cells (obs : list (Z * Z)) :
  Forall (fun o => binary (fst o) /\ binary (snd o)) obs ->
  (count_pairs 0 0 obs + count_pairs 1 1 obs)
  + (count_pairs 1 0 obs + count_pairs 0 1 obs) = Z.of_nat (length obs).
Proof.
  unfold count_pairs.
  induction 1 as [| [a p] obs [Ha Hp] _ IH]; [reflexivity |].
  simpl in Ha, Hp.
  destruct Ha as [-> | ->], Hp as [-> | ->]; cbn -[Z.of_nat];
    rewrite ?Nat2Z.inj_succ; lia.
Qed.

Lemma two_classes_binary (l : list Z) :
  n_classes l = 2%nat -> In 0 l -> In 1 l -> Forall binary l.
Proof.
  unfold n_classes. intros Hn H0 H1. apply List.Forall_forall. intros z Hz.
  destruct (Z.eq_dec z 0) as [-> | Hz0]; [left; reflexivity |].
  destruct (Z.eq_dec z 1) as [-> | Hz1]; [right; reflexivity |].
  exfalso.
  assert (Hd : List.NoDup [0; 1; z]).
  { apply List.NoDup_cons; [simpl; intuition lia |].
    apply List.NoDup_cons; [simpl; intuition lia |].
    apply List.NoDup_cons; [simpl; tauto | apply List.NoDup_nil]. }
  assert (Hi : incl [0; 1; z] (nodup Z.eq_dec l)).
  { intros x [<- | [<- | [<- | []]]]; apply nodup_In; assumption. }
  pose proof (List.NoDup_incl_length Hd Hi) as Hl. simpl in Hl. lia.
Qed.

Lemma argmax_binary (p : proba) : binary (argmax p).
Proof. unfold argmax, binary. destruct (Qlt_le_dec _ _); auto. Qed.

Lemma combine_fst {A B : Type} (l : list A) (l' : list B) :
  length l = length l' -> map fst (combine l l') = l.
Proof.
  revert l'. induction l as [| a l IH]; intros [| b l'] H; simpl in *;
    try discriminate; [reflexivity |].
  f_equal. apply IH. lia.
Qed.

Lemma combine_snd {A B : Type} (l : list A) (l' : list B) :
  length l = length l' -> map snd (combine l l') = l'.
Proof.
  revert l'. induction l as [| a l IH]; intros [| b l'] H; simpl in *;
    try discriminate; [reflexivity |].
  f_equal. apply IH. lia.
Qed.

Lemma combined_ok (y_test outcomes : list Z) (obs : list (Z * Z)) :
  combined y_test outcomes = Ok obs ->
  length y_test = length outcomes /\ obs = combine y_test outcomes.
Proof.
  unfold combined. destruct (Nat.eqb _ _) eqn:H; intros E; inversion E.
  apply Nat.eqb_eq in H. split; [exact H | reflexivity].
Qed.

Lemma log_loss_two_classes (ln : Q -> Q) (e : Q) (y_true y_pred : list Z) (l : Q) :
  log_loss ln e y_true y_pred = Ok l -> n_classes y_true = 2%nat.
Proof.
  unfold log_loss. intros H. bind_inv H.
  destruct (Nat.eqb (n_classes y_true) 2) eqn:Hn; simpl in H; [| discriminate H].
  apply Nat.eqb_eq. exact Hn.
Qed.

(** ** One iteration of the loop *)

Section FoldFacts.
Context {T : Toolkit}.

(** What a successful iteration went through. *)
Lemma fold_body_inv (sp : Split) (arr : list num) (outs : list Z) :
  fold_body sp = Ok (arr, outs) ->
  exists preds p a l r rc c i,
    outs = map argmax preds /\
    length (y_test sp) = length outs /\
    precision_score (y_test sp) outs = Ok p /\
    accuracy_score (y_test sp) outs = Ok a /\
    log_loss flog eps (y_test sp) outs = Ok l /\
    roc_auc_score (y_test sp) outs = Ok r /\
    recall_score (y_test sp) outs = Ok rc /\
    confusion_counts (crosstab (combine (y_test sp) outs)) = Ok (c, i) /\
    arr = [Float (percent p); Float (percent rc); Float (percent a);
           Float (round4 l); Float (percent r); Int c; Int i;
           Int (Z.of_nat (length outs))].
Proof.
  unfold fold_body. cbv zeta. intros H.
  bind_inv H. rename v into model. bind_inv H. rename v into preds.
  bind_inv H. rename v into comb.
  apply combined_ok in E1. destruct E1 as [Hlen ->].
  bind_inv H. rename v into p. bind_inv H. rename v into a.
  bind_inv H. rename v into l. bind_inv H. rename v into r.
  bind_inv H. rename v into rc. bind_inv H. destruct v as [c i].
  inversion H; subst arr outs. clear H.
  exists preds, p, a, l, r, rc, c, i. simpl. repeat split; assumption.
Qed.

(** [outcomes] holds the arg-max class of the predictions on the held-out
    part. *)
Lemma fold_body_outcomes (sp : Split) (arr : list num) (outs : list Z) :
  fold_body sp = Ok (arr, outs) ->
  exists model preds,
    xgb_train PARAMS {| dm_data := x_train sp; dm_label := y_train sp |}
      EPOCHS = Ok model /\
    xgb_predict model {| dm_data := x_test sp; dm_label := y_test sp |}
      = Ok preds /\
    outs = map argmax preds.
Proof.
  unfold fold_body. cbv zeta. intros H.
  bind_inv H. rename v into model. bind_inv H. rename v into preds.
  exists model, preds. split; [exact E |]. split; [exact E0 |].
  repeat (bind_inv H). inversion H. reflexivity.
Qed.

Lemma fold_body_row (sp : Split) (arr : list num) (outs : list Z) :
  fold_body sp = Ok (arr, outs) -> length arr = 8%nat /\ is_metrics_row arr.
Proof.
  intros H. apply fold_body_inv in H.
  destruct H as (preds & p & a & l & r & rc & c & i & _ & _ & _ & _ & _ & _ & _ & _ & ->).
  split; [reflexivity |]. unfold is_metrics_row. repeat eexists.
Qed.

Lemma fold_body_classes (sp : Split) (arr : list num) (outs : list Z) :
  fold_body sp = Ok (arr, outs) ->
  both_classes (y_test sp) = true /\ both_classes outs = true.
Proof.
  intros H. apply fold_body_inv in H.
  destruct H as (preds & p & a & l & r & rc & c & i & _ & Hlen & _ & _ & _ & _ & _ & Hcc & _).
  rewrite confusion_counts_crosstab in Hcc.
  rewrite (combine_fst _ _ Hlen), (combine_snd _ _ Hlen) in Hcc.
  destruct (both_classes (y_test sp)), (both_classes outs);
    simpl in Hcc; try discriminate Hcc. split; reflexivity.
Qed.

Lemma fold_body_counts (sp : Split) (arr : list num) (outs : list Z) :
  fold_body sp = Ok (arr, outs) ->
  int_field 5 arr + int_field 6 arr = int_field 7 arr /\
  int_field 7 arr = Z.of_nat (length (y_test sp)) /\
  int_field 7 arr = Z.of_nat (length outs).
Proof.
  intros H. pose proof (fold_body_classes _ _ _ H) as [Hy Ho].
  apply fold_body_inv in H.
  destruct H as (preds & p & a & l & r & rc & c & i & Hout & Hlen & _ & _ & Hll & _ & _ & Hcc & ->).
  unfold int_field. simpl.
  rewrite confusion_counts_crosstab in Hcc.
  rewrite (combine_fst _ _ Hlen), (combine_snd _ _ Hlen), Hy, Ho in Hcc.
  simpl in Hcc. inversion Hcc; subst c i. clear Hcc.
  split; [| split; [rewrite Hlen |]; reflexivity].
  assert (Hb : Forall binary (y_test sp)).
  { unfold both_classes in Hy. apply andb_prop in Hy. destruct Hy as [Hy0 Hy1].
    apply two_classes_binary.
    - eapply log_loss_two_classes. exact Hll.
    - apply mem_In. exact Hy0.
    - apply mem_In. exact Hy1. }
  rewrite four_cells.
  - rewrite length_combine, Hlen, Nat.min_id. reflexivity.
  - apply List.Forall_forall. intros [y o] Hin. simpl.
    pose proof (in_combine_l _ _ _ _ Hin) as Hy'.
    pose proof (in_combine_r _ _ _ _ Hin) as Ho'.
    split.
    + rewrite List.Forall_forall in Hb. apply Hb. exact Hy'.
    + rewrite Hout in Ho'. apply in_map_iff in Ho'.
      destruct Ho' as (q & <- & _). apply argmax_binary.
Qed.

Lemma fold_body_ranges (sp : Split) (arr : list num) (outs : list Z) :
  fold_body sp = Ok (arr, outs) ->
  (0 <= float_field 0 arr <= 100)%Q /\
  (0 <= float_field 1 arr <= 100)%Q /\
  (0 <= float_field 2 arr <= 100)%Q /\
  (0 <= float_field 3 arr)%Q /\
  (0 <= float_field 4 arr <= 100)%Q.
Proof.
  intros H. apply fold_body_inv in H.
  destruct H as (preds & p & a & l & r & rc & c & i & _ & _ & Hp & Ha & Hl & Hr & Hrc & _ & ->).
  unfold float_field. simpl.
  apply precision_score_range in Hp. apply accuracy_score_range in Ha.
  apply roc_auc_score_range in Hr. apply recall_score_range in Hrc.
  apply log_loss_nonneg in Hl;
    [| apply eps_range | apply eps_range | apply flog_nonpos].
  repeat split;
    try (apply percent_range; tauto); try (apply round4_nonneg; exact Hl).
Qed.

End FoldFacts.

(** ** The loop *)

Section LoopFacts.
Context {T : Toolkit}.

Lemma split_at_succ (k : nat) (X : DataFrame) (y : list Z) (w : rng) :
  split_at (S k) X y w =
  split_at k X y (snd (train_test_split X y (15 # 100) w)).
Proof. reflexivity. Qed.

(** A run of [n] iterations that ends normally appended one row per
    iteration, each from the split drawn in that iteration, and left the
    split and predictions of the final iteration in the loop variables. *)
Lemma cv_loop_ok (n : nat) :
  forall (X : DataFrame) (y : list Z) (st st' : LoopState) (w w' : rng),
    cv_loop n X y st w = (Ok st', w') ->
    w' = rng_at n X y w /\
    exists new,
      metrics_list st' = metrics_list st ++ new /\
      length new = n /\
      (forall k row, nth_error new k = Some row ->
         exists sp outs, split_at k X y w = Ok sp /\ fold_body sp = Ok (row, outs)) /\
      match n with
      | O => latest st' = latest st
      | S m => exists sp outs row,
          split_at m X y w = Ok sp /\
          fold_body sp = Ok (row, outs) /\
          latest st' = Some (sp, outs)
      end.
Proof.
  induction n as [| n IH]; intros X y st st' w w' H.
  - simpl in H. inversion H; subst st' w'. split; [reflexivity |].
    exists []. rewrite app_nil_r. repeat split.
    intros [| k] row Hk; discriminate Hk.
  - simpl in H.
    destruct (train_test_split X y (15 # 100) w) as [[sp | e] w1] eqn:Hs;
      [| discriminate H].
    destruct (fold_body sp) as [[arr outs] | e] eqn:Hf; [| discriminate H].
    apply IH in H. destruct H as (Hw & new & Hm & Hlen & Hrows & Hlast).
    assert (Hw1 : w1 = snd (train_test_split X y (15 # 100) w))
      by (rewrite Hs; reflexivity).
    assert (Hs0 : split_at 0 X y w = Ok sp)
      by (unfold split_at; simpl; rewrite Hs; reflexivity).
    split; [simpl; rewrite <- Hw1; exact Hw |].
    exists (arr :: new). simpl in Hm. rewrite <- app_assoc in Hm.
    split; [exact Hm |]. split; [simpl; congruence |]. split.
    + intros [| k] row Hk; simpl in Hk.
      * inversion Hk; subst row. exists sp, outs. split; assumption.
      * rewrite split_at_succ, <- Hw1. apply Hrows. exact Hk.
    + destruct n as [| m].
      * exists sp, outs, arr. simpl in Hlast. repeat split; assumption.
      * destruct Hlast as (sp' & outs' & row' & Ha & Hb & Hc).
        exists sp', outs', row'. rewrite split_at_succ, <- Hw1.
        repeat split; assumption.
Qed.

(** What a normal return of [build_model] went through. *)
Lemma build_model_ok (X : DataFrame) (y : list Z) (n : nat) (w w' : rng)
    (out : ModelOutput) :
  build_model X y n w = (Ok out, w') ->
  length (out_metrics out) = n /\
  (forall k row, nth_error (out_metrics out) k = Some row ->
     exists sp outs, split_at k X y w = Ok sp /\ fold_body sp = Ok (row, outs)) /\
  exists m sp row,
    n = S m /\
    split_at m X y w = Ok sp /\
    fold_body sp = Ok (row, out_outcomes out) /\
    out_x_train out = x_train sp /\
    out_y_train out = y_train sp /\
    out_y_test out = y_test sp.
Proof.
  unfold build_model. intros H.
  destruct (cv_loop n X y loop_init w) as [[st | e] w1] eqn:Hl; [| discriminate H].
  apply cv_loop_ok in Hl. destruct Hl as (_ & new & Hm & Hlen & Hrows & Hlast).
  simpl in Hm. destruct n as [| m].
  - rewrite Hlast in H. simpl in H. discriminate H.
  - destruct Hlast as (sp & outs & row & Ha & Hb & Hc).
    rewrite Hc in H. inversion H; subst out w'. simpl.
    rewrite Hm. split; [exact Hlen |]. split; [exact Hrows |].
    exists m, sp, row. repeat split; assumption.
Qed.

End LoopFacts.

(* ===================================================================== *)
(** * build_model *)
(* ===================================================================== *)

Lemma nth_error_Forall {A : Type} (P : A -> Prop) (l : list A) :
  (forall k x, nth_error l k = Some x -> P x) -> Forall P l.
Proof.
  intros H. apply List.Forall_forall. intros x Hx.
  apply In_nth_error in Hx. destruct Hx as [k Hk]. exact (H k x Hk).
Qed.

(** C1, as stated, fails: with a target that holds a single class every
    split is degenerate, [log_loss] rejects it, and [build_model] raises
    [ValueError] instead of returning a metrics list. *)
Lemma build_model_single_class_raises :
  fst (build_model (T := Demo.toolkit) Demo.games Demo.no_home_win 5 0%nat)
  = Raise ValueError.
Proof. vm_compute. reflexivity. Qed.

(** C1 (amended): whenever [build_model] returns, the fold count N is at
    least 1, the metrics list has exactly N entries, and every entry has
    exactly eight fields: five floats (precision, recall, accuracy, logloss,
    ROC) followed by three integers (correct, incorrect, game count). *)
Theorem build_model_metrics_shape {T : Toolkit} (X : DataFrame) (y : list Z)
    (n : nat) (w w' : rng) (out : ModelOutput) :
  build_model X y n w = (Ok out, w') ->
  (1 <= n)%nat /\
  length (out_metrics out) = n /\
  Forall (fun row => length row = 8%nat /\ is_metrics_row row) (out_metrics out).
Proof.
  intros H. apply build_model_ok in H.
  destruct H as (Hlen & Hrows & m & _ & _ & -> & _).
  split; [lia |]. split; [exact Hlen |].
  apply nth_error_Forall. intros k row Hk.
  destruct (Hrows k row Hk) as (sp & outs & _ & Hf).
  exact (fold_body_row _ _ _ Hf).
Qed.

Lemma build_model_metrics_shape_witness :
  (1 <= 3)%nat /\
  length (out_metrics Demo.out3) = 3%nat /\
  Forall (fun row => length row = 8%nat /\ is_metrics_row row)
         (out_metrics Demo.out3).
Proof.
  apply (build_model_metrics_shape (T := Demo.toolkit)
           Demo.games Demo.outcome 3 0%nat 3%nat Demo.out3).
  vm_compute. reflexivity.
Defined.

(** C2: in every fold of a run of [build_model] that returns, the correct
    count plus the incorrect count read off the cross-tabulation equals the
    number of held-out samples of that fold's split, which is also the
    recorded game count. *)
Theorem build_model_confusion_total {T : Toolkit} (X : DataFrame) (y : list Z)
    (n : nat) (w w' : rng) (out : ModelOutput) (k : nat) (row : list num) :
  build_model X y n w = (Ok out, w') ->
  nth_error (out_metrics out) k = Some row ->
  exists sp,
    split_at k X y w = Ok sp /\
    int_field 5 row + int_field 6 row = Z.of_nat (length (y_test sp)) /\
    int_field 7 row = Z.of_nat (length (y_test sp)).
Proof.
  intros H Hk. apply build_model_ok in H. destruct H as (_ & Hrows & _).
  destruct (Hrows k row Hk) as (sp & outs & Hs & Hf).
  exists sp. split; [exact Hs |].
  destruct (fold_body_counts _ _ _ Hf) as (Hsum & Hy & _).
  split; [rewrite Hsum |]; exact Hy.
Qed.

Lemma build_model_confusion_total_witness :
  exists sp,
    split_at (T := Demo.toolkit) 1 Demo.games Demo.outcome 0%nat = Ok sp /\
    int_field 5 Demo.row1 + int_field 6 Demo.row1
    = Z.of_nat (length (y_test sp)) /\
    int_field 7 Demo.row1 = Z.of_nat (length (y_test sp)).
Proof.
  apply (build_model_confusion_total (T := Demo.toolkit)
           Demo.games Demo.outcome 3 0%nat 3%nat Demo.out3 1).
  - vm_compute. reflexivity.
  - vm_compute. reflexivity.
Defined.

(** C3: in every fold of a run of [build_model] that returns, the recorded
    precision, recall, accuracy and ROC-AUC lie in [0, 100] and the recorded
    log-loss is non-negative. *)
Theorem build_model_metric_ranges {T : Toolkit} (X : DataFrame) (y : list Z)
    (n : nat) (w w' : rng) (out : ModelOutput) :
  build_model X y n w = (Ok out, w') ->
  Forall (fun row =>
            (0 <= float_field 0 row <= 100)%Q /\
            (0 <= float_field 1 row <= 100)%Q /\
            (0 <= float_field 2 row <= 100)%Q /\
            (0 <= float_field 3 row)%Q /\
            (0 <= float_field 4 row <= 100)%Q)
         (out_metrics out).
Proof.
  intros H. apply build_model_ok in H. destruct H as (_ & Hrows & _).
  apply nth_error_Forall. intros k row Hk.
  destruct (Hrows k row Hk) as (sp & outs & _ & Hf).
  exact (fold_body_ranges _ _ _ Hf).
Qed.

Lemma build_model_metric_ranges_witness :
  Forall (fun row =>
            (0 <= float_field 0 row <= 100)%Q /\
            (0 <= float_field 1 row <= 100)%Q /\
            (0 <= float_field 2 row <= 100)%Q /\
            (0 <= float_field 3 row)%Q /\
            (0 <= float_field 4 row <= 100)%Q)
         (out_metrics Demo.out3).
Proof.
  apply (build_model_metric_ranges (T := Demo.toolkit)
           Demo.games Demo.outcome 3 0%nat 3%nat).
  vm_compute. reflexivity.
Defined.

(** C7, as stated, fails: the returned value does not hold the held-out
    features.  Two frames that differ only in a held-out row of the final
    fold give the same returned value, although the held-out feature
    partitions of their final folds differ. *)
Lemma build_model_output_omits_x_test :
  fst (build_model (T := Demo.toolkit) Demo.games Demo.outcome 3 0%nat)
  = fst (build_model (T := Demo.toolkit) Demo.games_alt Demo.outcome 3 0%nat)
  /\ is_ok (fst (build_model (T := Demo.toolkit) Demo.games Demo.outcome 3 0%nat))
     = true
  /\ x_test_at (T := Demo.toolkit) 2 Demo.games Demo.outcome 0%nat
     <> x_test_at (T := Demo.toolkit) 2 Demo.games_alt Demo.outcome 0%nat.
Proof.
  split; [vm_compute; reflexivity |]. split; [vm_compute; reflexivity |].
  vm_compute. intros H. inversion H.
Qed.

(** C7 (amended): when [build_model] returns, it returns the metrics list
    together with the training features, the training labels and the
    held-out labels of the split drawn in the final fold, and the arg-max
    classes predicted for that fold's held-out rows.  (The held-out features
    are not part of the returned value.) *)
Theorem build_model_returns_last_fold {T : Toolkit} (X : DataFrame) (y : list Z)
    (n : nat) (w w' : rng) (out : ModelOutput) :
  build_model X y n w = (Ok out, w') ->
  exists sp model preds,
    split_at (n - 1) X y w = Ok sp /\
    out_x_train out = x_train sp /\
    out_y_train out = y_train sp /\
    out_y_test out = y_test sp /\
    xgb_train PARAMS {| dm_data := x_train sp; dm_label := y_train sp |}
      EPOCHS = Ok model /\
    xgb_predict model {| dm_data := x_test sp; dm_label := y_test sp |}
      = Ok preds /\
    out_outcomes out = map argmax preds.
Proof.
  intros H. apply build_model_ok in H.
  destruct H as (_ & _ & m & sp & row & -> & Hs & Hf & Hx & Hy & Ht).
  destruct (fold_body_outcomes _ _ _ Hf) as (model & preds & Htr & Hpr & Ho).
  exists sp, model, preds.
  replace (S m - 1)%nat with m by lia.
  repeat split; assumption.
Qed.

Lemma build_model_returns_last_fold_witness :
  exists sp model preds,
    split_at (T := Demo.toolkit) (3 - 1) Demo.games Demo.outcome 0%nat = Ok sp /\
    out_x_train Demo.out3 = x_train sp /\
    out_y_train Demo.out3 = y_train sp /\
    out_y_test Demo.out3 = y_test sp /\
    xgb_train (Toolkit := Demo.toolkit) PARAMS
      {| dm_data := x_train sp; dm_label := y_train sp |} EPOCHS = Ok model /\
    xgb_predict (Toolkit := Demo.toolkit) model
      {| dm_data := x_test sp; dm_label := y_test sp |} = Ok preds /\
    out_outcomes Demo.out3 = map argmax preds.
Proof.
  apply (build_model_returns_last_fold (T := Demo.toolkit)
           Demo.games Demo.outcome 3 0%nat 3%nat).
  vm_compute. reflexivity.
Defined.

(** C10: the confusion counts of lines 74-75 are defined exactly when both
    classes occur among the fold's actual labels and among its predicted
    labels; otherwise a row or a column of the cross-tabulation is missing
    and the indexing raises [KeyError].  With both classes on both sides the
    error branch is not taken. *)
Theorem confusion_counts_defined (y_test outcomes : list Z)
    (comb : list (Z * Z)) :
  combined y_test outcomes = Ok comb ->
  (both_classes y_test && both_classes outcomes = true ->
   confusion_counts (crosstab comb)
   = Ok (count_pairs 0 0 comb + count_pairs 1 1 comb,
         count_pairs 1 0 comb + count_pairs 0 1 comb)) /\
  (both_classes y_test && both_classes outcomes = false ->
   confusion_counts (crosstab comb) = Raise KeyError).
Proof.
  intros Hc. apply combined_ok in Hc. destruct Hc as [Hlen ->].
  rewrite confusion_counts_crosstab.
  rewrite (combine_fst _ _ Hlen), (combine_snd _ _ Hlen).
  split; intros H; rewrite H; reflexivity.
Qed.

Lemma confusion_counts_defined_witness :
  confusion_counts (crosstab [(1, 1); (0, 0); (1, 0)]) = Ok (2, 1) /\
  confusion_counts (crosstab [(1, 1); (0, 1); (1, 1)]) = Raise KeyError.
Proof.
  split.
  - apply (proj1 (confusion_counts_defined [1; 0; 1] [1; 0; 0]
                    [(1, 1); (0, 0); (1, 0)] eq_refl)).
    vm_compute. reflexivity.
  - apply (proj2 (confusion_counts_defined [1; 0; 1] [1; 1; 1]
                    [(1, 1); (0, 1); (1, 1)] eq_refl)).
    vm_compute. reflexivity.
Defined.

(* ===================================================================== *)
(** * build_metric_table *)
(* ===================================================================== *)

(** ** Column aggregates *)

Lemma Qmin_le_l (a b : Q) : (Qmin a b <= a)%Q.
Proof. unfold Qmin. destruct (Qlt_le_dec b a); lra. Qed.

Lemma Qmin_le_r (a b : Q) : (Qmin a b <= b)%Q.
Proof. unfold Qmin. destruct (Qlt_le_dec b a); lra. Qed.

Lemma Qmax_ge_l (a b : Q) : (a <= Qmax a b)%Q.
Proof. unfold Qmax. destruct (Qlt_le_dec a b); lra. Qed.

Lemma Qmax_ge_r (a b : Q) : (b <= Qmax a b)%Q.
Proof. unfold Qmax. destruct (Qlt_le_dec a b); lra. Qed.

Lemma fold_min_lower (rest : list Q) :
  forall x y, In y (x :: rest) -> (fold_left Qmin rest x <= y)%Q.
Proof.
  induction rest as [| z rest IH]; intros x y Hy.
  - destruct Hy as [<- | []]. simpl. lra.
  - simpl. destruct Hy as [<- | Hy].
    + apply Qle_trans with (Qmin x z); [| apply Qmin_le_l].
      apply IH. left. reflexivity.
    + destruct Hy as [<- | Hy].
      * apply Qle_trans with (Qmin x z); [| apply Qmin_le_r].
        apply IH. left. reflexivity.
      * apply IH. right. exact Hy.
Qed.

Lemma fold_max_upper (rest : list Q) :
  forall x y, In y (x :: rest) -> (y <= fold_left Qmax rest x)%Q.
Proof.
  induction rest as [| z rest IH]; intros x y Hy.
  - destruct Hy as [<- | []]. simpl. lra.
  - simpl. destruct Hy as [<- | Hy].
    + apply Qle_trans with (Qmax x z); [apply Qmax_ge_l |].
      apply IH. left. reflexivity.
    + destruct Hy as [<- | Hy].
      * apply Qle_trans with (Qmax x z); [apply Qmax_ge_r |].
        apply IH. left. reflexivity.
      * apply IH. right. exact Hy.
Qed.

Lemma Qsum_bounds (a b : Q) (l : list Q) :
  (forall y, In y l -> (a <= y)%Q /\ (y <= b)%Q) ->
  (inject_Z (Z.of_nat (length l)) * a <= Qsum l)%Q /\
  (Qsum l <= inject_Z (Z.of_nat (length l)) * b)%Q.
Proof.
  induction l as [| x l IH]; intros H.
  - cbn [length Qsum fold_right].
    change (inject_Z (Z.of_nat 0)) with 0%Q. split; lra.
  - destruct (H x (or_introl eq_refl)) as [Hax Hxb].
    destruct IH as [IHa IHb]; [intros y Hy; apply H; right; exact Hy |].
    cbn [length Qsum fold_right]. fold (Qsum l).
    rewrite Nat2Z.inj_succ. unfold Z.succ. rewrite inject_Z_plus.
    change (inject_Z 1) with 1%Q.
    generalize dependent (inject_Z (Z.of_nat (length l))). intros n IHa IHb.
    split; lra.
Qed.

(** In exact arithmetic, on a column with at least one value the mean, the
    minimum and the maximum are numbers, and the mean lies between the
    other two. *)
Lemma column_mean_between (col : list Q) :
  col <> [] ->
  exists mean lo hi,
    agg_mean col = Some mean /\ agg_min col = Some lo /\ agg_max col = Some hi /\
    (lo <= mean)%Q /\ (mean <= hi)%Q.
Proof.
  destruct col as [| x rest]; [congruence | intros _].
  set (col := x :: rest).
  exists (Qsum col / inject_Z (Z.of_nat (length col)))%Q,
         (fold_left Qmin rest x), (fold_left Qmax rest x).
  split; [reflexivity |]. split; [reflexivity |]. split; [reflexivity |].
  assert (Hn : (0 < inject_Z (Z.of_nat (length col)))%Q).
  { change 0%Q with (inject_Z 0). rewrite <- Zlt_Qlt. simpl. lia. }
  destruct (Qsum_bounds (fold_left Qmin rest x) (fold_left Qmax rest x) col)
    as [Hlo Hhi].
  { intros y Hy. split; [apply fold_min_lower | apply fold_max_upper]; exact Hy. }
  split.
  - apply Qle_shift_div_l; [exact Hn |]. rewrite Qmult_comm. exact Hlo.
  - apply Qle_shift_div_r; [exact Hn |]. rewrite Qmult_comm. exact Hhi.
Qed.

Lemma frame_columns_ok (metrics_data : list (list num)) (table : list (list Q)) :
  frame_columns metrics_data = Ok table ->
  length table = 8%nat /\
  Forall (fun col => length col = length metrics_data) table.
Proof.
  unfold frame_columns. destruct (forallb _ _); intros H; inversion H.
  split; [reflexivity |].
  repeat (apply List.Forall_cons; [apply length_map |]). apply List.Forall_nil.
Qed.

(** ** The summary table *)

(** The depth bound of the pairwise sum is immaterial once it covers the
    length of the array. *)
Lemma pairwise_sum_fuel (f1 : nat) :
  forall (f2 : nat) (a : list float),
    (length a <= f1)%nat -> (length a <= f2)%nat ->
    Binary64.pairwise_sum f1 a = Binary64.pairwise_sum f2 a.
Proof.
  induction f1 as [| f1 IH]; intros f2 a H1 H2.
  - destruct f2 as [| f2]; [reflexivity |]. cbn [Binary64.pairwise_sum].
    destruct (Nat.ltb_spec 128 (length a)); [lia | reflexivity].
  - destruct f2 as [| f2]; cbn [Binary64.pairwise_sum].
    + destruct (Nat.ltb_spec 128 (length a)); [lia | reflexivity].
    + destruct (Nat.ltb_spec 128 (length a)) as [Hn | Hn]; [| reflexivity].
      pose proof (Nat.div_mod_eq (length a) 2) as Hd.
      pose proof (Nat.mod_upper_bound (length a) 2 ltac:(lia)) as Hm.
      pose proof (Nat.mod_upper_bound (length a / 2) 8 ltac:(lia)) as Hm8.
      set (n2 := (length a / 2 - (length a / 2) mod 8)%nat).
      assert (Hn2 : (0 < n2 < length a)%nat) by (unfold n2; lia).
      f_equal; apply IH; rewrite ?length_firstn, ?length_skipn; lia.
Qed.


(** C5: the summary table is a function of the metrics list alone (the
    store does not influence it), and aggregating the same list a second
    time returns the same table and leaves the store as the first run left
    it. *)
Theorem build_metric_table_idempotent {T : Toolkit}
    (metrics_data : list (list num)) (db db2 : gmap string Stored) :
  fst (build_metric_table metrics_data db)
  = fst (build_metric_table metrics_data db2) /\
  build_metric_table metrics_data (snd (build_metric_table metrics_data db))
  = build_metric_table metrics_data db.
Proof.
  unfold build_metric_table.
  destruct (frame_columns metrics_data) as [cols | e]; simpl.
  - split; [reflexivity |]. f_equal. unfold to_sql. apply insert_insert_eq.
  - split; reflexivity.
Qed.

(* ===================================================================== *)
(** * feature_scoring *)
(* ===================================================================== *)

(** ** Sorting *)

Section SortFacts.
Context {A : Type} (geb : A -> A -> bool).
Hypothesis geb_total : forall a b, geb a b = true \/ geb b a = true.
Hypothesis geb_trans :
  forall a b c, geb a b = true -> geb b c = true -> geb a c = true.

Lemma insert_desc_perm (x : A) (l : list A) :
  Permutation (insert_desc geb x l) (x :: l).
Proof.
  induction l as [| y l IH]; simpl; [apply Permutation_refl |].
  destruct (geb y x); [| apply Permutation_refl].
  apply Permutation_trans with (y :: x :: l).
  - apply perm_skip. exact IH.
  - apply perm_swap.
Qed.

Lemma sort_desc_perm (l : list A) : Permutation (sort_desc geb l) l.
Proof.
  induction l as [| x l IH]; simpl; [apply perm_nil |].
  apply Permutation_trans with (x :: sort_desc geb l).
  - apply insert_desc_perm.
  - apply perm_skip. exact IH.
Qed.

Lemma insert_desc_sorted (x : A) (l : list A) :
  StronglySorted (fun a b => geb a b = true) l ->
  StronglySorted (fun a b => geb a b = true) (insert_desc geb x l).
Proof.
  induction 1 as [| y l Hs IH Hy]; simpl.
  - apply SSorted_cons; [apply SSorted_nil | apply List.Forall_nil].
  - destruct (geb y x) eqn:Hyx.
    + apply SSorted_cons; [exact IH |].
      apply (Permutation_Forall (Permutation_sym (insert_desc_perm x l))).
      apply List.Forall_cons; assumption.
    + assert (Hxy : geb x y = true).
      { destruct (geb_total x y) as [H | H]; [exact H | congruence]. }
      apply SSorted_cons; [apply SSorted_cons; assumption |].
      apply List.Forall_cons; [exact Hxy |].
      apply (List.Forall_impl _ (fun b Hb => geb_trans x y b Hxy Hb)). exact Hy.
Qed.

Lemma sort_desc_sorted (l : list A) :
  StronglySorted (fun a b => geb a b = true) (sort_desc geb l).
Proof.
  induction l as [| x l IH]; simpl; [apply SSorted_nil |].
  apply insert_desc_sorted. exact IH.
Qed.

End SortFacts.

Lemma score_geb_total (a b : fscore) :
  score_geb a b = true \/ score_geb b a = true.
Proof.
  destruct a as [| x |], b as [| y |]; simpl; auto.
  destruct (Qlt_le_dec x y) as [H | H].
  - right. apply Qle_bool_iff. lra.
  - left. apply Qle_bool_iff. exact H.
Qed.

Lemma score_geb_trans (a b c : fscore) :
  score_geb a b = true -> score_geb b c = true -> score_geb a c = true.
Proof.
  destruct a as [| x |], b as [| y |], c as [| z |]; simpl;
    try reflexivity; try discriminate; try (intros; assumption).
  rewrite !Qle_bool_iff. intros H1 H2. lra.
Qed.

(** ** The score table *)

Section ScoringFacts.
Context {T : Toolkit}.

(** What a normal return of [feature_scoring] went through. *)
Lemma feature_scoring_ok (X : DataFrame) (y : list Z) (db : gmap string Stored)
    (t : ScoreFrame) :
  fst (feature_scoring X y db) = Ok t ->
  exists scores_,
    f_classif X y = Ok scores_ /\
    sf_labels t = ("Specs", "Score")%string /\
    sf_rows t = sort_desc (fun r s => score_geb (fst r) (fst s))
                          (combine scores_ (columns X)) /\
    snd (feature_scoring X y db) = to_sql "feature_scores" (StoredScores t) db.
Proof.
  unfold feature_scoring.
  destruct (f_classif X y) as [scores_ | e] eqn:Hf; [| discriminate].
  cbn [sort_values sf_labels sf_rows fst snd String.eqb Ascii.eqb Bool.eqb].
  intros H. injection H as <-. exists scores_. repeat split.
Qed.

(** The rows are the (statistic, name) pairs of the frame, rearranged. *)
Lemma feature_scoring_rows (X : DataFrame) (y : list Z) (db : gmap string Stored)
    (t : ScoreFrame) :
  fst (feature_scoring X y db) = Ok t ->
  exists scores_,
    f_classif X y = Ok scores_ /\
    Permutation (sf_rows t) (combine scores_ (columns X)) /\
    Permutation (map fst (sf_rows t)) scores_ /\
    Permutation (map snd (sf_rows t)) (columns X) /\
    snd (feature_scoring X y db) !! "feature_scores"%string
      = Some (StoredScores t).
Proof.
  intros H. apply feature_scoring_ok in H.
  destruct H as (scores_ & Hf & _ & Hrows & Hdb).
  pose proof (f_classif_length _ _ _ Hf) as Hlen.
  assert (Hperm : Permutation (sf_rows t) (combine scores_ (columns X))).
  { rewrite Hrows. apply sort_desc_perm. }
  exists scores_. split; [exact Hf |]. split; [exact Hperm |].
  split; [| split].
  - apply Permutation_trans with (map fst (combine scores_ (columns X))).
    + apply Permutation_map. exact Hperm.
    + rewrite (combine_fst scores_ (columns X) Hlen). apply Permutation_refl.
  - apply Permutation_trans with (map snd (combine scores_ (columns X))).
    + apply Permutation_map. exact Hperm.
    + rewrite (combine_snd scores_ (columns X) Hlen). apply Permutation_refl.
  - rewrite Hdb. unfold to_sql. apply lookup_insert_eq.
Qed.

End ScoringFacts.

(** C8, as stated, fails: a frame may carry the same label on two columns,
    and then the score table lists that feature name twice. *)
Lemma feature_scoring_repeats_duplicate_label :
  exists t,
    fst (feature_scoring (T := Demo.toolkit) Demo.twins [0; 1] ∅) = Ok t /\
    ~ List.NoDup (map snd (sf_rows t)).
Proof.
  eexists. split; [vm_compute; reflexivity |].
  intros H. inversion H as [| x l Hx _]. apply Hx. left. reflexivity.
Qed.

(** C8 (amended): for every frame with k columns on which
    [feature_scoring] returns, the table it returns is the one persisted
    under ["feature_scores"], has exactly k rows, lists the input column
    names with the multiplicities they have in the frame (hence without
    duplicates when the input names are distinct), pairs them with the
    F statistics of the frame, and is ordered descending by that statistic,
    NaN last. *)
Theorem feature_scoring_table {T : Toolkit} (X : DataFrame) (y : list Z)
    (db : gmap string Stored) (t : ScoreFrame) :
  fst (feature_scoring X y db) = Ok t ->
  snd (feature_scoring X y db) !! "feature_scores"%string = Some (StoredScores t) /\
  length (sf_rows t) = length (columns X) /\
  Permutation (map snd (sf_rows t)) (columns X) /\
  (List.NoDup (columns X) -> List.NoDup (map snd (sf_rows t))) /\
  (exists scores_, f_classif X y = Ok scores_ /\
                   Permutation (sf_rows t) (combine scores_ (columns X))) /\
  StronglySorted (fun r s => score_geb (fst r) (fst s) = true) (sf_rows t).
Proof.
  intros H.
  destruct (feature_scoring_rows X y db t H)
    as (scores_ & Hf & Hperm & _ & Hnames & Hdb).
  apply feature_scoring_ok in H. destruct H as (s' & Hf' & _ & Hrows & _).
  rewrite Hf in Hf'. injection Hf' as <-.
  split; [exact Hdb |].
  split; [rewrite <- (Permutation_length Hnames); symmetry; apply length_map |].
  split; [exact Hnames |].
  split; [intros Hnd; exact (Permutation_NoDup (Permutation_sym Hnames) Hnd) |].
  split; [exists scores_; split; assumption |].
  rewrite Hrows. apply sort_desc_sorted.
  - intros a b. apply score_geb_total.
  - intros a b c. apply score_geb_trans.
Qed.

Lemma feature_scoring_table_witness :
  snd (feature_scoring (T := Demo.toolkit) Demo.games Demo.outcome ∅)
    !! "feature_scores"%string = Some (StoredScores Demo.scores) /\
  length (sf_rows Demo.scores) = length (columns Demo.games) /\
  Permutation (map snd (sf_rows Demo.scores)) (columns Demo.games) /\
  (List.NoDup (columns Demo.games) -> List.NoDup (map snd (sf_rows Demo.scores))) /\
  (exists scores_,
     f_classif (Toolkit := Demo.toolkit) Demo.games Demo.outcome = Ok scores_ /\
     Permutation (sf_rows Demo.scores) (combine scores_ (columns Demo.games))) /\
  StronglySorted (fun r s => score_geb (fst r) (fst s) = true)
                 (sf_rows Demo.scores).
Proof.
  apply (feature_scoring_table (T := Demo.toolkit) Demo.games Demo.outcome ∅).
  vm_compute. reflexivity.
Defined.

(** C9: in the table [feature_scoring] returns and persists, the column
    labelled ["Specs"] holds the F statistics and the column labelled
    ["Score"] holds the feature names. *)
Theorem feature_scoring_labels_swapped {T : Toolkit} (X : DataFrame)
    (y : list Z) (db : gmap string Stored) (t : ScoreFrame) :
  fst (feature_scoring X y db) = Ok t ->
  snd (feature_scoring X y db) !! "feature_scores"%string = Some (StoredScores t) /\
  exists scores_ statistics names,
    f_classif X y = Ok scores_ /\
    sf_getitem t "Specs" = Ok (NumCol statistics) /\
    sf_getitem t "Score" = Ok (TextCol names) /\
    Permutation statistics scores_ /\
    Permutation names (columns X).
Proof.
  intros H.
  destruct (feature_scoring_rows X y db t H)
    as (scores_ & Hf & _ & Hstats & Hnames & Hdb).
  apply feature_scoring_ok in H. destruct H as (s' & _ & Hl & _ & _).
  split; [exact Hdb |].
  exists scores_, (map fst (sf_rows t)), (map snd (sf_rows t)).
  split; [exact Hf |].
  unfold sf_getitem. rewrite Hl. cbn.
  repeat split; assumption.
Qed.

Lemma feature_scoring_labels_swapped_witness :
  snd (feature_scoring (T := Demo.toolkit) Demo.games Demo.outcome ∅)
    !! "feature_scores"%string = Some (StoredScores Demo.scores) /\
  exists scores_ statistics names,
    f_classif (Toolkit := Demo.toolkit) Demo.games Demo.outcome = Ok scores_ /\
    sf_getitem Demo.scores "Specs" = Ok (NumCol statistics) /\
    sf_getitem Demo.scores "Score" = Ok (TextCol names) /\
    Permutation statistics scores_ /\
    Permutation names (columns Demo.games).
Proof.
  apply (feature_scoring_labels_swapped (T := Demo.toolkit)
           Demo.games Demo.outcome ∅).
  vm_compute. reflexivity.
Defined.

(* ===================================================================== *)
(** * The recorded log-loss *)
(* ===================================================================== *)

(** The recorded log-loss is [log_loss] of the held-out labels against the
    arg-max classes, not against the predicted probabilities. *)
Lemma fold_body_logloss {T : Toolkit} (sp : Split) (arr : list num)
    (outs : list Z) :
  fold_body sp = Ok (arr, outs) ->
  exists l,
    log_loss flog eps (y_test sp) outs = Ok l /\
    float_field 3 arr = round4 l.
Proof.
  intros H. apply fold_body_inv in H.
  destruct H as (preds & p & a & l & r & rc & c & i & _ & _ & _ & _ & Hl & _ & _ & _ & ->).
  exists l. split; [exact Hl | reflexivity].
Qed.

(** Under any increasing logarithm the negative log-likelihood tells the two
    prediction lists of the demonstration apart. *)
Lemma neg_log_likelihood_separates (ln : Q -> Q) :
  (forall a b : Q, (a < b)%Q -> (ln a < ln b)%Q) ->
  (neg_log_likelihood ln [1; 0; 1]%Z Demo.preds0
   < neg_log_likelihood ln [1; 0; 1]%Z Demo.preds0_soft)%Q.
Proof.
  intros Hln. unfold neg_log_likelihood, Demo.preds0, Demo.preds0_soft.
  cbn [combine map Qsum fold_right fst snd Z.eqb Pos.eqb length].
  assert (H1 : (ln (6 # 10) < ln (9 # 10))%Q) by (apply Hln; reflexivity).
  assert (H2 : (ln (6 # 10) < ln (8 # 10))%Q) by (apply Hln; reflexivity).
  assert (H3 : (ln (3 # 10) < ln (4 # 10))%Q) by (apply Hln; reflexivity).
  change (inject_Z (Z.of_nat 3)) with 3%Q.
  unfold Qdiv. change (/ 3)%Q with (1 # 3)%Q.
  generalize dependent (ln (6 # 10)). generalize dependent (ln (9 # 10)).
  generalize dependent (ln (8 # 10)). generalize dependent (ln (3 # 10)).
  generalize dependent (ln (4 # 10)).
  intros l4 l3 H3 l8 l9 l6 H1 H2. lra.
Qed.

(** C6 at the failing input: the learner predicts different probabilities
    for the held-out games of [games] and of [games_soft], on the same side
    of one half, and [build_model] records the same rows, log-loss included,
    for both. *)
Lemma logloss_blind_to_probabilities :
  preds_at (T := Demo.toolkit) 0 Demo.games Demo.outcome 0%nat
    = Ok Demo.preds0 /\
  preds_at (T := Demo.toolkit) 0 Demo.games_soft Demo.outcome 0%nat
    = Ok Demo.preds0_soft /\
  Demo.preds0 <> Demo.preds0_soft /\
  fst (build_model (T := Demo.toolkit) Demo.games Demo.outcome 3 0%nat)
    = Ok Demo.out3 /\
  fst (build_model (T := Demo.toolkit) Demo.games_soft Demo.outcome 3 0%nat)
    = Ok Demo.out3_soft /\
  out_metrics Demo.out3 = out_metrics Demo.out3_soft.
Proof.
  repeat split; try (vm_compute; reflexivity).
  intros H. inversion H.
Qed.

(* ===================================================================== *)
(** * More on build_model *)
(* ===================================================================== *)

Section LoopOutcomes.
Context {T : Toolkit}.

Lemma fold_at_succ (k : nat) (X : DataFrame) (y : list Z) (w : rng) :
  fold_at (S k) X y w
  = fold_at k X y (snd (train_test_split X y (15 # 100) w)).
Proof. reflexivity. Qed.

Lemma fold_at_ok (k : nat) (X : DataFrame) (y : list Z) (w : rng) :
  is_ok (fold_at k X y w) = true <->
  exists sp row outs, split_at k X y w = Ok sp /\ fold_body sp = Ok (row, outs).
Proof.
  unfold fold_at. split.
  - destruct (split_at k X y w) as [sp | e]; simpl; [| discriminate].
    destruct (fold_body sp) as [[row outs] | e] eqn:Hf; simpl; [| discriminate].
    intros _. exists sp, row, outs. split; [reflexivity | exact Hf].
  - intros (sp & row & outs & -> & Hf). simpl. rewrite Hf. reflexivity.
Qed.

(** The loop stops at the first iteration that raises. *)
Lemma cv_loop_first_failure (n : nat) :
  forall (k : nat) (X : DataFrame) (y : list Z) (st : LoopState) (w : rng)
         (e : exn),
    (k < n)%nat ->
    (forall j, (j < k)%nat -> is_ok (fold_at j X y w) = true) ->
    fold_at k X y w = Raise e ->
    fst (cv_loop n X y st w) = Raise e.
Proof.
  induction n as [| n IH]; intros k X y st w e Hk Hbefore Hfail; [lia |].
  simpl.
  destruct (train_test_split X y (15 # 100) w) as [[sp | e0] w1] eqn:Hs.
  - assert (Hw1 : w1 = snd (train_test_split X y (15 # 100) w))
      by (rewrite Hs; reflexivity).
    assert (H0 : fold_at 0 X y w = fold_body sp).
    { unfold fold_at, split_at. simpl. rewrite Hs. reflexivity. }
    destruct k as [| k].
    + rewrite H0 in Hfail. rewrite Hfail. reflexivity.
    + pose proof (Hbefore 0%nat ltac:(lia)) as Hfirst. rewrite H0 in Hfirst.
      destruct (fold_body sp) as [[arr outs] | e0]; [| discriminate Hfirst].
      apply (IH k); [lia | |].
      * intros j Hj. rewrite Hw1, <- fold_at_succ. apply Hbefore. lia.
      * rewrite Hw1, <- fold_at_succ. exact Hfail.
  - assert (H0 : fold_at 0 X y w = Raise e0).
    { unfold fold_at, split_at. simpl. rewrite Hs. reflexivity. }
    destruct k as [| k].
    + rewrite H0 in Hfail. inversion Hfail. reflexivity.
    + pose proof (Hbefore 0%nat ltac:(lia)) as Hfirst. rewrite H0 in Hfirst.
      discriminate Hfirst.
Qed.

(** The loop completes when every iteration does. *)
Lemma cv_loop_completes (n : nat) :
  forall (X : DataFrame) (y : list Z) (st : LoopState) (w : rng),
    (forall j, (j < n)%nat -> is_ok (fold_at j X y w) = true) ->
    exists st', fst (cv_loop n X y st w) = Ok st' /\
                (n <> 0%nat -> latest st' <> None).
Proof.
  induction n as [| n IH]; intros X y st w Hall.
  - exists st. split; [reflexivity | congruence].
  - simpl. pose proof (Hall 0%nat ltac:(lia)) as H0.
    apply fold_at_ok in H0. destruct H0 as (sp & row & outs & Hs & Hf).
    unfold split_at in Hs. simpl in Hs.
    destruct (train_test_split X y (15 # 100) w) as [r w1] eqn:Hsplit.
    simpl in Hs. subst r. rewrite Hf.
    destruct (IH X y {| metrics_list := metrics_list st ++ [row];
                        latest := Some (sp, outs) |} w1) as (st' & Hst & Hl).
    { intros j Hj. specialize (Hall (S j) ltac:(lia)).
      rewrite fold_at_succ, Hsplit in Hall. exact Hall. }
    exists st'. split; [exact Hst |]. intros _.
    destruct n as [| n]; [| apply Hl; congruence].
    simpl in Hst. inversion Hst. simpl. congruence.
Qed.

End LoopOutcomes.

(** X1: [build_model] returns exactly when the fold count is at least one
    and every one of its iterations (the split and the body) completes.
    With a fold count of zero the loop body never runs, the variables of
    the return statement are unbound, and [build_model] raises
    [UnboundLocalError] without drawing from the generator. *)
Theorem build_model_returns_iff {T : Toolkit} (X : DataFrame) (y : list Z)
    (n : nat) (w : rng) :
  (is_ok (fst (build_model X y n w)) = true <->
   (1 <= n)%nat /\ forall k, (k < n)%nat -> is_ok (fold_at k X y w) = true) /\
  build_model X y 0 w = (Raise UnboundLocalError, w).
Proof.
  split; [| reflexivity]. split.
  - destruct (build_model X y n w) as [[out | e] w'] eqn:H; simpl;
      [intros _ | discriminate].
    apply build_model_ok in H. destruct H as (Hlen & Hrows & m & _ & _ & -> & _).
    split; [lia |]. intros k Hk. apply fold_at_ok.
    destruct (nth_error (out_metrics out) k) as [row |] eqn:Hrow.
    + destruct (Hrows k row Hrow) as (sp & outs & Hs & Hf).
      exists sp, row, outs. split; assumption.
    + apply nth_error_None in Hrow. lia.
  - intros [Hn Hall]. unfold build_model.
    destruct (cv_loop_completes n X y loop_init w Hall) as (st' & Hst & Hl).
    destruct (cv_loop n X y loop_init w) as [r w1]. simpl in Hst. subst r.
    destruct (latest st') as [[sp outs] |] eqn:Hlatest; [reflexivity |].
    exfalso. apply Hl; [lia | reflexivity].
Qed.

(** X2: when iteration k is the first to raise, [build_model] raises that
    same exception and returns nothing of the iterations before it. *)
Theorem build_model_first_failure {T : Toolkit} (X : DataFrame) (y : list Z)
    (n k : nat) (w : rng) (e : exn) :
  (k < n)%nat ->
  (forall j, (j < k)%nat -> is_ok (fold_at j X y w) = true) ->
  fold_at k X y w = Raise e ->
  fst (build_model X y n w) = Raise e.
Proof.
  intros Hk Hbefore Hfail. unfold build_model.
  pose proof (cv_loop_first_failure n k X y loop_init w e Hk Hbefore Hfail) as H.
  destruct (cv_loop n X y loop_init w) as [r w1]. simpl in H. subst r.
  reflexivity.
Qed.

Lemma build_model_first_failure_witness :
  fst (build_model (T := Demo.toolkit) Demo.games Season.streak 3 0%nat)
  = Raise ValueError.
Proof.
  apply (build_model_first_failure (T := Demo.toolkit)
           Demo.games Season.streak 3 1 0%nat ValueError).
  - lia.
  - intros j Hj. assert (j = 0%nat) as -> by lia. vm_compute. reflexivity.
  - vm_compute. reflexivity.
Defined.

Section RowFacts.
Context {T : Toolkit}.

(** In a completed iteration the held-out labels and the predicted labels
    are 0/1 vectors of one length, each holding both classes. *)
Lemma fold_body_labels (sp : Split) (arr : list num) (outs : list Z) :
  fold_body sp = Ok (arr, outs) ->
  length (y_test sp) = length outs /\
  Forall binary (y_test sp) /\ Forall binary outs /\
  both_classes (y_test sp) = true /\ both_classes outs = true.
Proof.
  intros H. pose proof (fold_body_classes _ _ _ H) as [Hy Ho].
  apply fold_body_inv in H.
  destruct H as (preds & p & a & l & r & rc & c & i & Hout & Hlen & _ & _ & Hll & _).
  split; [exact Hlen |]. split; [| split; [| split; assumption]].
  - unfold both_classes in Hy. apply andb_prop in Hy. destruct Hy as [Hy0 Hy1].
    apply two_classes_binary.
    + eapply log_loss_two_classes. exact Hll.
    + apply mem_In. exact Hy0.
    + apply mem_In. exact Hy1.
  - rewrite Hout. apply List.Forall_forall. intros o Ho'.
    apply in_map_iff in Ho'. destruct Ho' as (q & <- & _). apply argmax_binary.
Qed.

Lemma agree_binary (obs : list (Z * Z)) :
  Forall (fun o => binary (fst o) /\ binary (snd o)) obs ->
  agree obs = count_pairs 0 0 obs + count_pairs 1 1 obs.
Proof.
  unfold agree, count_if, count_pairs.
  induction 1 as [| [a p] obs [Ha Hp] _ IH]; [reflexivity |].
  simpl in Ha, Hp.
  destruct Ha as [-> | ->], Hp as [-> | ->]; cbn -[Z.of_nat];
    rewrite ?Nat2Z.inj_succ; lia.
Qed.

Lemma both_classes_length (l : list Z) :
  both_classes l = true -> (2 <= length l)%nat.
Proof.
  unfold both_classes. intros H. apply andb_prop in H. destruct H as [H0 H1].
  apply mem_In in H0. apply mem_In in H1.
  destruct l as [| a [| b l]]; simpl in *; [tauto | | lia].
  destruct H0 as [H0 | []], H1 as [H1 | []]. lia.
Qed.

(** The recorded accuracy and counts of one completed iteration. *)
Lemma fold_body_accuracy (sp : Split) (arr : list num) (outs : list Z) :
  fold_body sp = Ok (arr, outs) ->
  float_field 2 arr = percent (ratio (int_field 5 arr) (int_field 7 arr)) /\
  0 <= int_field 5 arr /\ 0 <= int_field 6 arr /\ 2 <= int_field 7 arr.
Proof.
  intros H. pose proof (fold_body_labels _ _ _ H) as (Hlen & Hby & Hbo & Hy & Ho).
  apply fold_body_inv in H.
  destruct H as (preds & p & a & l & r & rc & c & i & _ & _ & _ & Ha & _ & _ & _ & Hcc & ->).
  unfold float_field, int_field. simpl.
  rewrite confusion_counts_crosstab in Hcc.
  rewrite (combine_fst _ _ Hlen), (combine_snd _ _ Hlen), Hy, Ho in Hcc.
  simpl in Hcc. inversion Hcc; subst c i. clear Hcc.
  unfold accuracy_score, check_consistent_length in Ha.
  rewrite (proj2 (Nat.eqb_eq _ _) Hlen) in Ha. simpl in Ha.
  inversion Ha; subst a. clear Ha.
  assert (Hobs : Forall (fun o => binary (fst o) /\ binary (snd o))
                        (combine (y_test sp) outs)).
  { apply List.Forall_forall. intros [yv ov] Hin. simpl.
    rewrite List.Forall_forall in Hby, Hbo. split.
    - apply Hby. exact (in_combine_l _ _ _ _ Hin).
    - apply Hbo. exact (in_combine_r _ _ _ _ Hin). }
  split; [| split; [| split]].
  - rewrite (agree_binary _ Hobs), length_combine, Hlen, Nat.min_id.
    reflexivity.
  - unfold count_pairs. lia.
  - unfold count_pairs. lia.
  - apply both_classes_length in Ho. lia.
Qed.

End RowFacts.

(** X3: the held-out labels and the predictions that [build_model] returns
    (the vectors the script goes on to plot) have the same length, hold
    only the labels 0 and 1, and each holds both classes. *)
Theorem build_model_returned_labels {T : Toolkit} (X : DataFrame) (y : list Z)
    (n : nat) (w w' : rng) (out : ModelOutput) :
  build_model X y n w = (Ok out, w') ->
  length (out_y_test out) = length (out_outcomes out) /\
  Forall binary (out_y_test out) /\
  Forall binary (out_outcomes out) /\
  both_classes (out_y_test out) = true /\
  both_classes (out_outcomes out) = true.
Proof.
  intros H. apply build_model_ok in H.
  destruct H as (_ & _ & m & sp & row & _ & _ & Hf & _ & _ & ->).
  exact (fold_body_labels _ _ _ Hf).
Qed.

Lemma build_model_returned_labels_witness :
  length (out_y_test Demo.out3) = length (out_outcomes Demo.out3) /\
  Forall binary (out_y_test Demo.out3) /\
  Forall binary (out_outcomes Demo.out3) /\
  both_classes (out_y_test Demo.out3) = true /\
  both_classes (out_outcomes Demo.out3) = true.
Proof.
  apply (build_model_returned_labels (T := Demo.toolkit)
           Demo.games Demo.outcome 3 0%nat 3%nat).
  vm_compute. reflexivity.
Defined.

(** Rounding to the nearest integer moves a number by at most one half,
    rounding to four decimals by at most half a ten-thousandth. *)
Lemma round_half_even_near (q : Q) :
  (q - (1 # 2) <= inject_Z (round_half_even q))%Q /\
  (inject_Z (round_half_even q) <= q + (1 # 2))%Q.
Proof.
  pose proof (Qfloor_le q) as Hlo. pose proof (Qlt_floor q) as Hhi.
  rewrite inject_Z_plus in Hhi. change (inject_Z 1) with 1%Q in Hhi.
  unfold round_half_even.
  destruct (q - inject_Z (Qfloor q) ?= 1 # 2)%Q eqn:Hc.
  - apply Qeq_alt in Hc.
    destruct (Z.even (Qfloor q));
      rewrite ?inject_Z_plus; change (inject_Z 1) with 1%Q; split; lra.
  - apply Qlt_alt in Hc. split; lra.
  - apply Qgt_alt in Hc. rewrite inject_Z_plus.
    change (inject_Z 1) with 1%Q. split; lra.
Qed.

Lemma percent_near (x : Q) :
  (100 * x - (1 # 200) <= percent x)%Q /\ (percent x <= 100 * x + (1 # 200))%Q.
Proof.
  unfold percent, round4.
  destruct (round_half_even_near (x * 10000)) as [Hlo Hhi].
  generalize dependent (inject_Z (round_half_even (x * 10000))).
  intros k Hlo Hhi. unfold Qdiv.
  change (/ 10000)%Q with (1 # 10000)%Q. split; lra.
Qed.

(** X4: in every row of the metrics list the correct and incorrect counts
    are not negative, at least two games were tested, and the recorded
    accuracy is the percentage of correct predictions among the games
    tested to within one hundredth of a point (rounding to four decimals
    accounts for half of that; the rest is room for the rounding of
    binary64 arithmetic). *)
Theorem build_model_accuracy_from_counts {T : Toolkit} (X : DataFrame)
    (y : list Z) (n : nat) (w w' : rng) (out : ModelOutput) :
  build_model X y n w = (Ok out, w') ->
  Forall (fun row =>
            0 <= int_field 5 row /\ 0 <= int_field 6 row /\
            2 <= int_field 7 row /\
            (100 * (inject_Z (int_field 5 row) / inject_Z (int_field 7 row))
             - (1 # 100) <= float_field 2 row)%Q /\
            (float_field 2 row
             <= 100 * (inject_Z (int_field 5 row) / inject_Z (int_field 7 row))
                + (1 # 100))%Q)
         (out_metrics out).
Proof.
  intros H. apply build_model_ok in H. destruct H as (_ & Hrows & _).
  apply nth_error_Forall. intros k row Hk.
  destruct (Hrows k row Hk) as (sp & outs & _ & Hf).
  destruct (fold_body_accuracy _ _ _ Hf) as (Hacc & Hc & Hi & Hg).
  split; [exact Hc |]. split; [exact Hi |]. split; [exact Hg |].
  rewrite Hacc. unfold ratio.
  destruct (Z.eqb_spec (int_field 7 row) 0) as [H0 | _]; [lia |].
  destruct (percent_near (inject_Z (int_field 5 row)
                          / inject_Z (int_field 7 row))) as [Hlo Hhi].
  split; lra.
Qed.

Lemma build_model_accuracy_from_counts_witness :
  Forall (fun row =>
            0 <= int_field 5 row /\ 0 <= int_field 6 row /\
            2 <= int_field 7 row /\
            (100 * (inject_Z (int_field 5 row) / inject_Z (int_field 7 row))
             - (1 # 100) <= float_field 2 row)%Q /\
            (float_field 2 row
             <= 100 * (inject_Z (int_field 5 row) / inject_Z (int_field 7 row))
                + (1 # 100))%Q)
         (out_metrics Demo.out3).
Proof.
  apply (build_model_accuracy_from_counts (T := Demo.toolkit)
           Demo.games Demo.outcome 3 0%nat 3%nat).
  vm_compute. reflexivity.
Defined.

(* ===================================================================== *)
(** * More on build_metric_table *)
(* ===================================================================== *)

Section TableFacts.
Context {T : Toolkit}.

Lemma build_metric_table_inv (metrics_data : list (list num))
    (db : gmap string Stored) (t : SummaryTable) :
  fst (build_metric_table metrics_data db) = Ok t ->
  Forall (fun row => length row = 8%nat) metrics_data /\
  st_index t = metric_columns /\
  st_rows t = summary_rows metrics_data /\
  snd (build_metric_table metrics_data db)
  = to_sql "metric_scores" (StoredSummary (st_rows t)) db.
Proof.
  unfold build_metric_table, frame_columns.
  destruct (forallb _ metrics_data) eqn:Hall; [| discriminate].
  cbn [fst snd]. intros H. injection H as <-.
  split; [| repeat split].
  apply List.Forall_forall. intros row Hrow.
  rewrite forallb_forall in Hall. apply Nat.eqb_eq. exact (Hall row Hrow).
Qed.

Lemma build_metric_table_accepts (metrics_data : list (list num))
    (db : gmap string Stored) :
  Forall (fun row => length row = 8%nat) metrics_data ->
  exists t, fst (build_metric_table metrics_data db) = Ok t.
Proof.
  intros Hall. unfold build_metric_table, frame_columns.
  assert (Hb : forallb (fun row => Nat.eqb (length row) 8) metrics_data = true).
  { apply forallb_forall. intros row Hrow. apply Nat.eqb_eq.
    rewrite List.Forall_forall in Hall. exact (Hall row Hrow). }
  rewrite Hb. eexists. reflexivity.
Qed.

Lemma summary_rows_Forall (P : nat -> SummaryRow -> Prop)
    (metrics_data : list (list num)) :
  (forall j name, (j < 8)%nat ->
     P j (summary_row name (summarise (metric_column j metrics_data)))) ->
  Forall (fun jr => P (fst jr) (snd jr))
         (combine (seq 0 8) (summary_rows metrics_data)).
Proof.
  intros H. unfold summary_rows.
  cbn [seq combine map metric_names fst snd].
  repeat (apply List.Forall_cons; [apply H; lia |]). apply List.Forall_nil.
Qed.

End TableFacts.

Lemma fold_min_attained (rest : list Q) :
  forall x, In (fold_left Qmin rest x) (x :: rest).
Proof.
  induction rest as [| z rest IH]; intros x; [left; reflexivity |].
  simpl. destruct (IH (Qmin x z)) as [H | H].
  - rewrite <- H. unfold Qmin. destruct (Qlt_le_dec z x); auto.
  - right. right. exact H.
Qed.

Lemma fold_max_attained (rest : list Q) :
  forall x, In (fold_left Qmax rest x) (x :: rest).
Proof.
  induction rest as [| z rest IH]; intros x; [left; reflexivity |].
  simpl. destruct (IH (Qmax x z)) as [H | H].
  - rewrite <- H. unfold Qmax. destruct (Qlt_le_dec x z); auto.
  - right. right. exact H.
Qed.

Lemma list_max_const (c : nat) (l : list nat) :
  l <> [] -> Forall (fun x => x = c) l -> list_max l = c.
Proof.
  intros Hne Hall. destruct l as [| x l]; [congruence |].
  clear Hne. revert x Hall. induction l as [| z l IH]; intros x Hall.
  - inversion Hall; subst. simpl. lia.
  - inversion Hall as [| ? ? Hx Hrest]; subst.
    specialize (IH z Hrest). simpl in *. lia.
Qed.



(** X5: a metrics list whose rows all have eight fields is always accepted;
    the summary has the eight metric names in the order of the columns
    (with ["ROC-AUC"] for the column ["ROC"]), is indexed by the column
    names, and is what is stored under ["metric_scores"]. *)
Theorem build_metric_table_layout {T : Toolkit}
    (metrics_data : list (list num)) (db : gmap string Stored) :
  Forall (fun row => length row = 8%nat) metrics_data ->
  exists t,
    fst (build_metric_table metrics_data db) = Ok t /\
    st_index t = metric_columns /\
    map Metric (st_rows t) = metric_names /\
    snd (build_metric_table metrics_data db) !! "metric_scores"%string
    = Some (StoredSummary (st_rows t)).
Proof.
  intros Hall. destruct (build_metric_table_accepts metrics_data db Hall) as [t Ht].
  exists t. split; [exact Ht |].
  apply build_metric_table_inv in Ht. destruct Ht as (_ & Hi & Hr & Hdb).
  split; [exact Hi |]. split.
  - rewrite Hr. reflexivity.
  - rewrite Hdb. unfold to_sql. apply lookup_insert_eq.
Qed.

Lemma build_metric_table_layout_witness :
  exists t,
    fst (build_metric_table (T := Demo.toolkit) Season.well_formed ∅) = Ok t /\
    st_index t = metric_columns /\
    map Metric (st_rows t) = metric_names /\
    snd (build_metric_table (T := Demo.toolkit) Season.well_formed ∅)
      !! "metric_scores"%string
    = Some (StoredSummary (st_rows t)).
Proof.
  apply (build_metric_table_layout (T := Demo.toolkit) Season.well_formed ∅).
  repeat (apply List.Forall_cons; [reflexivity |]). apply List.Forall_nil.
Defined.

(** X7: the minimum and the maximum in the summary row of a column are
    values that some fold recorded in that column. *)
Theorem summary_min_max_attained {T : Toolkit}
    (metrics_data : list (list num)) (db : gmap string Stored)
    (t : SummaryTable) :
  fst (build_metric_table metrics_data db) = Ok t ->
  metrics_data <> [] ->
  Forall (fun jr => exists lo hi,
            Min (snd jr) = Some lo /\ Max (snd jr) = Some hi /\
            In lo (metric_column (fst jr) metrics_data) /\
            In hi (metric_column (fst jr) metrics_data))
         (combine (seq 0 8) (st_rows t)).
Proof.
  intros H Hne. apply build_metric_table_inv in H. destruct H as (_ & _ & Hr & _).
  rewrite Hr.
  apply (summary_rows_Forall
           (fun j r => exists lo hi,
              Min r = Some lo /\ Max r = Some hi /\
              In lo (metric_column j metrics_data) /\
              In hi (metric_column j metrics_data))).
  intros j name _. cbn [summary_row Min Max summarise nth].
  destruct metrics_data as [| row rest]; [congruence |].
  unfold metric_column. cbn [map agg_min agg_max].
  eexists. eexists. split; [reflexivity |]. split; [reflexivity |].
  split; [apply fold_min_attained | apply fold_max_attained].
Qed.

Lemma summary_min_max_attained_witness :
  Forall (fun jr => exists lo hi,
            Min (snd jr) = Some lo /\ Max (snd jr) = Some hi /\
            In lo (metric_column (fst jr) (out_metrics Demo.out3)) /\
            In hi (metric_column (fst jr) (out_metrics Demo.out3)))
         (combine (seq 0 8) (st_rows Demo.summary3)).
Proof.
  apply (summary_min_max_attained (T := Demo.toolkit)
           (out_metrics Demo.out3) ∅).
  - vm_compute. reflexivity.
  - vm_compute. intros H. discriminate H.
Defined.

(** X8: [build_metric_table] touches the store only under
    ["metric_scores"]: after a summary is returned that table holds its
    rows and every other table is as before.  A list whose longest row has
    another length than eight is rejected with [ValueError], and nothing is
    written. *)
Theorem build_metric_table_store {T : Toolkit}
    (metrics_data : list (list num)) (db : gmap string Stored) :
  (forall t, fst (build_metric_table metrics_data db) = Ok t ->
     snd (build_metric_table metrics_data db) !! "metric_scores"%string
     = Some (StoredSummary (st_rows t)) /\
     forall name : string, name <> "metric_scores"%string ->
       snd (build_metric_table metrics_data db) !! name = db !! name) /\
  (metrics_data <> [] ->
   list_max (map (@length num) metrics_data) <> 8%nat ->
   build_metric_table metrics_data db = (Raise ValueError, db)).
Proof.
  split.
  - intros t H. apply build_metric_table_inv in H.
    destruct H as (_ & _ & _ & Hdb). rewrite Hdb. unfold to_sql. split.
    + apply lookup_insert_eq.
    + intros name Hne. apply lookup_insert_ne. congruence.
  - intros Hne Hmax. unfold build_metric_table, frame_columns.
    destruct (forallb _ metrics_data) eqn:Hall; [| reflexivity].
    exfalso. apply Hmax. apply list_max_const.
    + destruct metrics_data; [congruence | discriminate].
    + apply List.Forall_map. apply List.Forall_forall. intros row Hrow.
      rewrite forallb_forall in Hall. apply Nat.eqb_eq. exact (Hall row Hrow).
Qed.

Lemma build_metric_table_store_witness :
  build_metric_table (T := Demo.toolkit) Season.too_wide ∅
  = (Raise ValueError, ∅).
Proof.
  apply (proj2 (build_metric_table_store (T := Demo.toolkit)
                  Season.too_wide ∅)).
  - intros H. discriminate H.
  - vm_compute. intros H. discriminate H.
Defined.

(** X9: [feature_scoring] touches the store only under
    ["feature_scores"], and it raises exactly when the F-test does, with
    the same exception and without writing. *)
Theorem feature_scoring_store {T : Toolkit} (X : DataFrame) (y : list Z)
    (db : gmap string Stored) :
  (forall t, fst (feature_scoring X y db) = Ok t ->
     forall name : string, name <> "feature_scores"%string ->
       snd (feature_scoring X y db) !! name = db !! name) /\
  (forall e, fst (feature_scoring X y db) = Raise e <->
             f_classif X y = Raise e) /\
  (forall e, fst (feature_scoring X y db) = Raise e ->
             snd (feature_scoring X y db) = db).
Proof.
  split; [| split].
  - intros t H name Hne. apply feature_scoring_ok in H.
    destruct H as (s & _ & _ & _ & Hdb). rewrite Hdb. unfold to_sql.
    apply lookup_insert_ne. congruence.
  - intros e. unfold feature_scoring.
    destruct (f_classif X y) as [s | e0]; cbn; split; intros H;
      try discriminate H; inversion H; reflexivity.
  - intros e. unfold feature_scoring.
    destruct (f_classif X y) as [s | e0]; cbn; intros H;
      [discriminate H | reflexivity].
Qed.

(* ===================================================================== *)
(** * The metrics list on its way through the script *)
(* ===================================================================== *)

Lemma fold_bound_lower (rest : list Q) (x lo : Q) :
  Forall (fun v => (lo <= v)%Q) (x :: rest) ->
  (lo <= fold_left Qmin rest x)%Q.
Proof.
  intros H. rewrite List.Forall_forall in H. apply H. apply fold_min_attained.
Qed.

Lemma fold_bound_upper (rest : list Q) (x hi : Q) :
  Forall (fun v => (v <= hi)%Q) (x :: rest) ->
  (fold_left Qmax rest x <= hi)%Q.
Proof.
  intros H. rewrite List.Forall_forall in H. apply H. apply fold_max_attained.
Qed.

(** The aggregates of a column stay within the bounds of its values. *)
Lemma column_within (lo hi : Q) (col : list Q) (name : string)
    (sqrt : Q -> Q) :
  col <> [] ->
  Forall (fun v => (lo <= v)%Q /\ (v <= hi)%Q) col ->
  summary_within lo hi
    {| Metric := name; Mean := agg_mean col; Min := agg_min col;
       Max := agg_max col; Std := agg_std sqrt col |}.
Proof.
  intros Hne Hall.
  destruct (column_mean_between col Hne) as (mean & mn & mx & Hm & Hlo & Hhi & H1 & H2).
  exists mean, mn, mx. cbn [Mean Min Max].
  split; [exact Hm |]. split; [exact Hlo |]. split; [exact Hhi |].
  destruct col as [| x rest]; [congruence |].
  simpl in Hlo, Hhi. inversion Hlo; subst mn. inversion Hhi; subst mx.
  assert (Hmin : (lo <= fold_left Qmin rest x)%Q).
  { apply fold_bound_lower. apply (List.Forall_impl _ (fun v Hv => proj1 Hv) Hall). }
  assert (Hmax : (fold_left Qmax rest x <= hi)%Q).
  { apply fold_bound_upper. apply (List.Forall_impl _ (fun v Hv => proj2 Hv) Hall). }
  repeat split; lra.
Qed.

Lemma column_above (lo : Q) (col : list Q) (name : string) (sqrt : Q -> Q) :
  col <> [] ->
  Forall (fun v => (lo <= v)%Q) col ->
  summary_above lo
    {| Metric := name; Mean := agg_mean col; Min := agg_min col;
       Max := agg_max col; Std := agg_std sqrt col |}.
Proof.
  intros Hne Hall.
  destruct (column_mean_between col Hne) as (mean & mn & mx & Hm & Hlo & Hhi & H1 & H2).
  exists mean, mn, mx. cbn [Mean Min Max].
  split; [exact Hm |]. split; [exact Hlo |]. split; [exact Hhi |].
  destruct col as [| x rest]; [congruence |].
  simpl in Hlo. inversion Hlo; subst mn.
  assert (Hmin : (lo <= fold_left Qmin rest x)%Q).
  { apply fold_bound_lower. exact Hall. }
  repeat split; lra.
Qed.

Section Pipeline.
Context {T : Toolkit}.

(** Every row [build_model] returns has eight fields, within the ranges
    of the metrics. *)
Lemma build_model_rows (X : DataFrame) (y : list Z) (n : nat) (w w' : rng)
    (out : ModelOutput) :
  build_model X y n w = (Ok out, w') ->
  out_metrics out <> [] /\
  Forall (fun row =>
            length row = 8%nat /\
            ((0 <= float_field 0 row <= 100)%Q /\
             (0 <= float_field 1 row <= 100)%Q /\
             (0 <= float_field 2 row <= 100)%Q /\
             (0 <= float_field 3 row)%Q /\
             (0 <= float_field 4 row <= 100)%Q))
         (out_metrics out).
Proof.
  intros H. apply build_model_ok in H.
  destruct H as (Hlen & Hrows & m & _ & _ & -> & _).
  split; [destruct (out_metrics out); [discriminate Hlen | congruence] |].
  apply nth_error_Forall. intros k row Hk.
  destruct (Hrows k row Hk) as (sp & outs & _ & Hf).
  split; [exact (proj1 (fold_body_row _ _ _ Hf)) |].
  exact (fold_body_ranges _ _ _ Hf).
Qed.

End Pipeline.

(** X10: the metrics list of a run of [build_model] that returns is never
    rejected by [build_metric_table]: summarising it cannot raise. *)
Theorem metric_table_accepts_model_output {T : Toolkit} (X : DataFrame)
    (y : list Z) (n : nat) (w w' : rng) (out : ModelOutput)
    (db : gmap string Stored) :
  build_model X y n w = (Ok out, w') ->
  exists t, fst (build_metric_table (out_metrics out) db) = Ok t /\
            length (st_rows t) = 8%nat.
Proof.
  intros H. apply build_model_rows in H. destruct H as [_ Hrows].
  destruct (build_metric_table_accepts (out_metrics out) db) as [t Ht].
  { apply (List.Forall_impl _ (fun row Hr => proj1 Hr) Hrows). }
  exists t. split; [exact Ht |].
  apply build_metric_table_inv in Ht. destruct Ht as (_ & _ & -> & _).
  reflexivity.
Qed.

Lemma metric_table_accepts_model_output_witness :
  exists t,
    fst (build_metric_table (T := Demo.toolkit) (out_metrics Demo.out3) ∅)
    = Ok t /\ length (st_rows t) = 8%nat.
Proof.
  apply (metric_table_accepts_model_output (T := Demo.toolkit)
           Demo.games Demo.outcome 3 0%nat 3%nat).
  vm_compute. reflexivity.
Defined.

(** X11: in the summary of a run of [build_model], the mean, the minimum
    and the maximum of precision, recall, accuracy and ROC-AUC are numbers
    in [0, 100], those of the log-loss are numbers that are not negative,
    and in each of these rows the minimum is not above the maximum. *)
Theorem summary_of_model_output_ranges {T : Toolkit} (X : DataFrame)
    (y : list Z) (n : nat) (w w' : rng) (out : ModelOutput)
    (db : gmap string Stored) (t : SummaryTable) :
  build_model X y n w = (Ok out, w') ->
  fst (build_metric_table (out_metrics out) db) = Ok t ->
  exists precision recall accuracy logloss roc correct incorrect games,
    st_rows t = [precision; recall; accuracy; logloss; roc; correct;
                 incorrect; games] /\
    summary_within 0 100 precision /\ summary_within 0 100 recall /\
    summary_within 0 100 accuracy /\ summary_above 0 logloss /\
    summary_within 0 100 roc.
Proof.
  intros H Ht. apply build_model_rows in H. destruct H as [Hne Hrows].
  apply build_metric_table_inv in Ht. destruct Ht as (_ & _ & Hr & _).
  rewrite Hr. unfold summary_rows.
  cbn [seq combine map metric_names fst snd summary_row summarise nth].
  do 8 eexists. split; [reflexivity |].
  assert (Hcol : forall j, metric_column j (out_metrics out) <> []).
  { intros j. unfold metric_column.
    destruct (out_metrics out); [congruence | discriminate]. }
  assert (Hin : forall (P : list num -> Prop) (j : nat) (Q' : Q -> Prop),
             (forall row, P row -> Q' (float_field j row)) ->
             Forall P (out_metrics out) ->
             Forall Q' (metric_column j (out_metrics out))).
  { intros P j Q' HPQ HP. unfold metric_column. apply List.Forall_map.
    apply (List.Forall_impl _ HPQ HP). }
  repeat split.
  - apply column_within; [apply Hcol |].
    apply (Hin _ 0%nat _ (fun row Hrow => proj1 (proj2 Hrow)) Hrows).
  - apply column_within; [apply Hcol |].
    apply (Hin _ 1%nat _
             (fun row Hrow => proj1 (proj2 (proj2 Hrow))) Hrows).
  - apply column_within; [apply Hcol |].
    apply (Hin _ 2%nat _
             (fun row Hrow => proj1 (proj2 (proj2 (proj2 Hrow)))) Hrows).
  - apply column_above; [apply Hcol |].
    apply (Hin _ 3%nat _
             (fun row Hrow =>
                proj1 (proj2 (proj2 (proj2 (proj2 Hrow))))) Hrows).
  - apply column_within; [apply Hcol |].
    apply (Hin _ 4%nat _
             (fun row Hrow =>
                proj2 (proj2 (proj2 (proj2 (proj2 Hrow))))) Hrows).
Qed.

Lemma summary_of_model_output_ranges_witness :
  exists precision recall accuracy logloss roc correct incorrect games,
    st_rows Demo.summary3 = [precision; recall; accuracy; logloss; roc;
                             correct; incorrect; games] /\
    summary_within 0 100 precision /\ summary_within 0 100 recall /\
    summary_within 0 100 accuracy /\ summary_above 0 logloss /\
    summary_within 0 100 roc.
Proof.
  apply (summary_of_model_output_ranges (T := Demo.toolkit)
           Demo.games Demo.outcome 3 0%nat 3%nat Demo.out3 ∅).
  - vm_compute. reflexivity.
  - vm_compute. reflexivity.
Defined.

(** X13: when lines 316-318 of the script complete, [build_model] has run
    five folds, the summary of its metrics list is stored under
    ["metric_scores"] and the scores of the final fold's training part
    under ["feature_scores"], every other table of the store is as before,
    and the labels and predictions kept for the plots are those that
    [build_model] returned. *)
Theorem main_tables_ok {T : Toolkit} (data : DataFrame) (outcome : list Z)
    (w : rng) (db : gmap string Stored)
    (r : SummaryTable * ScoreFrame * list Z * list Z) :
  fst (fst (main_tables data outcome w db)) = Ok r ->
  exists out,
    fst (build_model data outcome 5 w) = Ok out /\
    length (out_metrics out) = 5%nat /\
    fst (build_metric_table (out_metrics out) db) = Ok (fst (fst (fst r))) /\
    (forall db1, fst (feature_scoring (out_x_train out) (out_y_train out) db1)
                 = Ok (snd (fst (fst r)))) /\
    snd (fst r) = out_y_test out /\
    snd r = out_outcomes out /\
    snd (main_tables data outcome w db) !! "metric_scores"%string
    = Some (StoredSummary (st_rows (fst (fst (fst r))))) /\
    snd (main_tables data outcome w db) !! "feature_scores"%string
    = Some (StoredScores (snd (fst (fst r)))) /\
    forall name : string,
      name <> "metric_scores"%string -> name <> "feature_scores"%string ->
      snd (main_tables data outcome w db) !! name = db !! name.
Proof.
  unfold main_tables. cbv zeta.
  destruct (build_model data outcome 5 w) as [[out | e] w'] eqn:Hb;
    [| discriminate].
  destruct (build_metric_table (out_metrics out) db) as [[mt | e] db1] eqn:Hm;
    [| discriminate].
  destruct (feature_scoring (out_x_train out) (out_y_train out) db1)
    as [[sc | e] db2] eqn:Hf; [| discriminate].
  cbn [fst snd]. intros H. injection H as <-. cbn [fst snd].
  exists out. split; [reflexivity |].
  split; [exact (proj1 (build_model_ok _ _ _ _ _ _ Hb)) |].
  split; [rewrite Hm; reflexivity |].
  assert (Hm1 : fst (build_metric_table (out_metrics out) db) = Ok mt)
    by (rewrite Hm; reflexivity).
  assert (Hf1 : fst (feature_scoring (out_x_train out) (out_y_train out) db1)
                = Ok sc) by (rewrite Hf; reflexivity).
  apply build_metric_table_inv in Hm1. destruct Hm1 as (_ & _ & _ & Hdb1).
  pose proof (feature_scoring_ok _ _ _ _ Hf1) as (s & Hs & Hl & Hrows & Hdb2).
  rewrite Hm in Hdb1. rewrite Hf in Hdb2. cbn [snd] in Hdb1, Hdb2.
  rewrite Hdb2, Hdb1. clear Hm Hf Hf1 Hdb1 Hdb2.
  unfold to_sql.
  split; [| split; [reflexivity | split; [reflexivity | split; [| split]]]].
  - intros store. unfold feature_scoring. rewrite Hs.
    cbn [sort_values sf_labels sf_rows fst snd String.eqb Ascii.eqb Bool.eqb].
    f_equal. destruct sc as [labels body]. simpl in Hl, Hrows. subst.
    reflexivity.
  - rewrite lookup_insert_ne by discriminate. apply lookup_insert_eq.
  - apply lookup_insert_eq.
  - intros name H1 H2. rewrite !lookup_insert_ne by congruence. reflexivity.
Qed.

Lemma main_tables_ok_witness :
  exists out,
    fst (build_model (T := Demo.toolkit) Demo.games Demo.outcome 5 0%nat)
    = Ok out /\
    length (out_metrics out) = 5%nat /\
    fst (build_metric_table (T := Demo.toolkit) (out_metrics out) ∅)
    = Ok (fst (fst (fst Season.tables_value))) /\
    (forall db1,
       fst (feature_scoring (T := Demo.toolkit)
              (out_x_train out) (out_y_train out) db1)
       = Ok (snd (fst (fst Season.tables_value)))) /\
    snd (fst Season.tables_value) = out_y_test out /\
    snd Season.tables_value = out_outcomes out /\
    snd (main_tables (T := Demo.toolkit) Demo.games Demo.outcome 0%nat ∅)
      !! "metric_scores"%string
    = Some (StoredSummary (st_rows (fst (fst (fst Season.tables_value))))) /\
    snd (main_tables (T := Demo.toolkit) Demo.games Demo.outcome 0%nat ∅)
      !! "feature_scores"%string
    = Some (StoredScores (snd (fst (fst Season.tables_value)))) /\
    forall name : string,
      name <> "metric_scores"%string -> name <> "feature_scores"%string ->
      snd (main_tables (T := Demo.toolkit) Demo.games Demo.outcome 0%nat ∅)
        !! name = (∅ : gmap string Stored) !! name.
Proof.
  apply (main_tables_ok (T := Demo.toolkit) Demo.games Demo.outcome 0%nat ∅).
  vm_compute. reflexivity.
Defined.

(* ===================================================================== *)
(** * The script around the three functions *)
(* ===================================================================== *)

(** X14: when lines 316-318 raise, either [build_model] raised that
    exception and the store is untouched, or [build_model] returned, the
    summary of its metrics list is already stored under ["metric_scores"],
    and the exception is the one the F-test raised on the final fold's
    training part.  Summarising the metrics list is never what fails. *)
Theorem main_tables_failure {T : Toolkit} (data : DataFrame)
    (outcome : list Z) (w : rng) (db : gmap string Stored) (e : exn) :
  fst (fst (main_tables data outcome w db)) = Raise e ->
  (fst (build_model data outcome 5 w) = Raise e /\
   snd (main_tables data outcome w db) = db) \/
  (exists out,
     fst (build_model data outcome 5 w) = Ok out /\
     f_classif (out_x_train out) (out_y_train out) = Raise e /\
     snd (main_tables data outcome w db) !! "metric_scores"%string
     = Some (StoredSummary (summary_rows (out_metrics out)))).
Proof.
  unfold main_tables. cbv zeta.
  destruct (build_model data outcome 5 w) as [[out | e0] w'] eqn:Hb.
  - right. exists out. split; [reflexivity |].
    destruct (build_model_rows _ _ _ _ _ _ Hb) as [_ Hrows].
    destruct (build_metric_table_accepts (out_metrics out) db) as [t Ht].
    { apply (List.Forall_impl _ (fun row Hr => proj1 Hr) Hrows). }
    pose proof (build_metric_table_inv _ _ _ Ht) as (_ & _ & Hr & Hdb).
    destruct (build_metric_table (out_metrics out) db) as [r db1].
    cbn [fst snd] in Ht, Hdb. subst r db1.
    revert H. unfold feature_scoring.
    destruct (f_classif (out_x_train out) (out_y_train out)) as [s | e1].
    + cbn. discriminate.
    + cbn [fst snd]. intros H. inversion H. subst e1.
      split; [reflexivity |]. rewrite Hr. unfold to_sql. apply lookup_insert_eq.
  - cbn [fst snd] in *. left. inversion H. split; reflexivity.
Qed.

Lemma main_tables_failure_witness :
  (fst (build_model (T := Demo.toolkit) Demo.games Demo.no_home_win 5 0%nat)
   = Raise ValueError /\
   snd (main_tables (T := Demo.toolkit) Demo.games Demo.no_home_win 0%nat ∅)
   = ∅) \/
  (exists out,
     fst (build_model (T := Demo.toolkit) Demo.games Demo.no_home_win 5 0%nat)
     = Ok out /\
     f_classif (Toolkit := Demo.toolkit) (out_x_train out) (out_y_train out)
     = Raise ValueError /\
     snd (main_tables (T := Demo.toolkit) Demo.games Demo.no_home_win 0%nat ∅)
       !! "metric_scores"%string
     = Some (StoredSummary (summary_rows (T := Demo.toolkit) (out_metrics out)))).
Proof.
  apply (main_tables_failure (T := Demo.toolkit)
           Demo.games Demo.no_home_win 0%nat ∅ ValueError).
  vm_compute. reflexivity.
Defined.

(** ** Preparing the frame *)

Lemma index_of_In (name : string) (labels : list string) :
  (exists j, index_of name labels = Some j) <-> In name labels.
Proof.
  induction labels as [| l labels IH]; simpl.
  - split; [intros [j H]; discriminate H | tauto].
  - destruct (String.eqb name l) eqn:Heq.
    + apply String.eqb_eq in Heq. subst l. split; [auto | eauto].
    + apply String.eqb_neq in Heq. split.
      * intros [j H]. right. apply IH.
        destruct (index_of name labels) as [i |]; [eauto | discriminate H].
      * intros [H | H]; [congruence |].
        apply IH in H. destruct H as [j ->]. simpl. eauto.
Qed.

Lemma positions_ok (names labels : list string) :
  (exists js, positions names labels = Ok js) <->
  Forall (fun n => In n labels) names.
Proof.
  induction names as [| n names IH]; simpl.
  - split; [intros _; apply List.Forall_nil | eauto].
  - split.
    + intros [js H]. destruct (index_of n labels) as [j |] eqn:Hj;
        [| discriminate H].
      destruct (positions names labels) as [js' | e] eqn:Hp;
        [| discriminate H].
      apply List.Forall_cons.
      * apply index_of_In. eauto.
      * apply IH. eauto.
    + intros H. inversion H as [| ? ? Hn Hrest]; subst.
      apply index_of_In in Hn. destruct Hn as [j ->].
      apply IH in Hrest. destruct Hrest as [js ->]. simpl. eauto.
Qed.

Lemma positions_raise (names labels : list string) (e : exn) :
  positions names labels = Raise e -> e = KeyError.
Proof.
  induction names as [| n names IH]; simpl; [discriminate |].
  destruct (index_of n labels); [| intros H; inversion H; reflexivity].
  destruct (positions names labels) as [js | e0]; simpl; [discriminate |].
  intros H. inversion H; subst. apply IH. reflexivity.
Qed.

Lemma positions_length (names labels : list string) (js : list nat) :
  positions names labels = Ok js -> length js = length names.
Proof.
  revert js. induction names as [| n names IH]; intros js; simpl.
  - intros H. inversion H. reflexivity.
  - destruct (index_of n labels); [| discriminate].
    destruct (positions names labels) as [js' |]; simpl; [| discriminate].
    intros H. inversion H. simpl. f_equal. apply IH. reflexivity.
Qed.

Lemma positions_head (n : string) (names labels : list string)
    (js : list nat) (j : nat) :
  positions (n :: names) labels = Ok js ->
  index_of n labels = Some j ->
  exists js', js = j :: js'.
Proof.
  cbn [positions]. intros H Hj. rewrite Hj in H.
  destruct (positions names labels) as [js' |]; [| discriminate H].
  cbn [bind] in H. inversion H. eauto.
Qed.

Lemma loc_rows_filter (p : list Q -> bool) (rws : list (list Q)) :
  loc_rows (map p rws) rws = List.filter p rws.
Proof.
  induction rws as [| r rws IH]; simpl; [reflexivity |].
  destruct (p r); rewrite IH; reflexivity.
Qed.

Lemma filter_length_le {A : Type} (p : A -> bool) (l : list A) :
  (length (List.filter p l) <= length l)%nat.
Proof.
  induction l as [| x l IH]; simpl; [lia |]. destruct (p x); simpl; lia.
Qed.

(** What [prepare] hands on, in terms of the rows it read. *)
Lemma prepare_inv (data X : DataFrame) (outcome : list Q) :
  prepare data = Ok (X, outcome) ->
  exists ja jo js,
    index_of "A_Massey" (columns data) = Some ja /\
    index_of "Outcome" (columns data) = Some jo /\
    positions FEATURES (columns data) = Ok (ja :: js) /\
    columns X = FEATURES /\
    rows X = map (fun row => map (fun j => nth j row 0%Q) (ja :: js))
                 (List.filter (fun row => negb (Qeq_bool (nth ja row 0%Q) 0))
                              (rows data)) /\
    outcome = map (fun row => nth jo row 0%Q)
                  (List.filter (fun row => negb (Qeq_bool (nth ja row 0%Q) 0))
                               (rows data)).
Proof.
  unfold prepare, getitem, select. cbn [columns rows].
  destruct (index_of "A_Massey" (columns data)) as [ja |] eqn:Ha;
    [| discriminate].
  cbn [bind]. rewrite map_map.
  rewrite (loc_rows_filter (fun row => negb (Qeq_bool (nth ja row 0%Q) 0))).
  destruct (index_of "Outcome" (columns data)) as [jo |] eqn:Ho;
    [| discriminate].
  cbn [bind].
  destruct (positions FEATURES (columns data)) as [js |] eqn:Hp;
    [| discriminate].
  cbn [bind]. intros H. inversion H; subst X outcome. clear H.
  assert (Hhead : exists js', js = ja :: js')
    by exact (positions_head _ _ _ _ _ Hp Ha).
  destruct Hhead as [js' ->].
  exists ja, jo, js'. repeat split; reflexivity.
Qed.

(** X15: what the script passes on to [build_model] has exactly the twelve
    feature columns, in the listed order, and as many rows as labels; no
    row is added, every row has twelve entries, and none has a zero in its
    first column, ["A_Massey"]. *)
Theorem prepare_ok (data X : DataFrame) (outcome : list Q) :
  prepare data = Ok (X, outcome) ->
  columns X = FEATURES /\
  length (rows X) = length outcome /\
  (length (rows X) <= length (rows data))%nat /\
  Forall (fun row => length row = 12%nat /\ ~ (nth 0 row 0 == 0)%Q) (rows X).
Proof.
  intros H. apply prepare_inv in H.
  destruct H as (ja & jo & js & _ & _ & Hp & Hc & -> & ->).
  split; [exact Hc |]. split; [rewrite !length_map; reflexivity |].
  split; [rewrite length_map; apply filter_length_le |].
  apply List.Forall_forall. intros row Hrow.
  apply in_map_iff in Hrow. destruct Hrow as (r & <- & Hr).
  apply filter_In in Hr. destruct Hr as [_ Hr].
  split.
  - rewrite length_map. apply positions_length in Hp. exact Hp.
  - cbn [map nth]. intros Hz. apply Qeq_bool_iff in Hz.
    rewrite Hz in Hr. discriminate Hr.
Qed.

Lemma prepare_ok_witness :
  columns (fst Season.prepared) = FEATURES /\
  length (rows (fst Season.prepared)) = length (snd Season.prepared) /\
  (length (rows (fst Season.prepared)) <= length (rows Season.raw))%nat /\
  Forall (fun row => length row = 12%nat /\ ~ (nth 0 row 0 == 0)%Q)
         (rows (fst Season.prepared)).
Proof.
  apply (prepare_ok Season.raw (fst Season.prepared) (snd Season.prepared)).
  vm_compute. reflexivity.
Defined.

(** X16: the labels stay aligned with the features: row i of the frame and
    label i come from the same game of the file, the games being those
    with a non-zero ["A_Massey"], in file order. *)
Theorem prepare_aligned (data X : DataFrame) (outcome : list Q) :
  prepare data = Ok (X, outcome) ->
  exists ja jo js,
    index_of "A_Massey" (columns data) = Some ja /\
    index_of "Outcome" (columns data) = Some jo /\
    positions FEATURES (columns data) = Ok js /\
    Forall2 (fun game xy =>
               fst xy = map (fun j => nth j game 0%Q) js /\
               snd xy = nth jo game 0%Q)
            (List.filter (fun row => negb (Qeq_bool (nth ja row 0%Q) 0))
                         (rows data))
            (combine (rows X) outcome).
Proof.
  intros H. apply prepare_inv in H.
  destruct H as (ja & jo & js & Ha & Ho & Hp & _ & -> & ->).
  exists ja, jo, (ja :: js).
  split; [exact Ha |]. split; [exact Ho |]. split; [exact Hp |].
  generalize (List.filter (fun row => negb (Qeq_bool (nth ja row 0%Q) 0))
                          (rows data)).
  intros games. induction games as [| g gs IH]; cbn [map combine].
  - constructor.
  - constructor; [split; reflexivity | exact IH].
Qed.

Lemma prepare_aligned_witness :
  exists ja jo js,
    index_of "A_Massey" (columns Season.raw) = Some ja /\
    index_of "Outcome" (columns Season.raw) = Some jo /\
    positions FEATURES (columns Season.raw) = Ok js /\
    Forall2 (fun game xy =>
               fst xy = map (fun j => nth j game 0%Q) js /\
               snd xy = nth jo game 0%Q)
            (List.filter (fun row => negb (Qeq_bool (nth ja row 0%Q) 0))
                         (rows Season.raw))
            (combine (rows (fst Season.prepared)) (snd Season.prepared)).
Proof.
  apply (prepare_aligned Season.raw (fst Season.prepared) (snd Season.prepared)).
  vm_compute. reflexivity.
Defined.

(** X17: [prepare] succeeds exactly when the frame has the label column
    and the twelve feature columns; otherwise it raises [KeyError]. *)
Theorem prepare_needs_columns (data : DataFrame) :
  (is_ok (prepare data) = true <->
   Forall (fun n => In n (columns data)) ("Outcome"%string :: FEATURES)) /\
  (forall e, prepare data = Raise e -> e = KeyError).
Proof.
  assert (Ha : forall js, positions FEATURES (columns data) = Ok js ->
                          exists ja, index_of "A_Massey" (columns data) = Some ja).
  { intros js Hp. apply index_of_In.
    assert (Hall : Forall (fun n => In n (columns data)) FEATURES)
      by (apply positions_ok; eauto).
    inversion Hall. assumption. }
  unfold prepare, getitem, select. cbn [columns rows]. split.
  - split.
    + intros H.
      destruct (index_of "A_Massey" (columns data)) as [ja |]; [| discriminate H].
      cbn [bind] in H.
      destruct (index_of "Outcome" (columns data)) as [jo |] eqn:Ho;
        [| discriminate H].
      cbn [bind] in H.
      destruct (positions FEATURES (columns data)) as [js |] eqn:Hp;
        [| discriminate H].
      apply List.Forall_cons.
      * apply index_of_In. eauto.
      * apply positions_ok. eauto.
    + intros H. inversion H as [| ? ? Hout Hfeat]; subst.
      apply index_of_In in Hout. destruct Hout as [jo Ho].
      apply positions_ok in Hfeat. destruct Hfeat as [js Hp].
      destruct (Ha js Hp) as [ja Hja].
      rewrite Hja. cbn [bind]. rewrite Ho. cbn [bind]. rewrite Hp. reflexivity.
  - intros e.
    destruct (index_of "A_Massey" (columns data)) as [ja |];
      [| intros H; inversion H; reflexivity].
    cbn [bind].
    destruct (index_of "Outcome" (columns data)) as [jo |];
      [| intros H; inversion H; reflexivity].
    cbn [bind].
    destruct (positions FEATURES (columns data)) as [js | e0] eqn:Hp;
      cbn [bind]; [discriminate |].
    intros H. inversion H; subst. exact (positions_raise _ _ _ Hp).
Qed.

(** ** The parameter list of hyperparameter_tuning *)

Lemma list_remove_tail (x : string) (l : list string) :
  Forall (fun h => h <> x) l -> list_remove x (l ++ [x]) = Ok l.
Proof.
  induction 1 as [| h l Hh _ IH]; simpl.
  - rewrite String.eqb_refl. reflexivity.
  - apply String.eqb_neq in Hh. rewrite Hh, IH. reflexivity.
Qed.

(** X18: whatever the keys of the search grid, removing
    ["mean_test_score"] from the column list never raises and leaves
    exactly the ["param_"] columns, one per key and in the order of the
    keys: the report loop never runs over the score column. *)
Theorem report_columns_ok (grid_keys : list string) :
  report_columns grid_keys = Ok (map (String.append "param_") grid_keys) /\
  ~ In "mean_test_score"%string (map (String.append "param_") grid_keys).
Proof.
  assert (H : Forall (fun h => h <> "mean_test_score"%string)
                     (map (String.append "param_") grid_keys)).
  { apply List.Forall_map. apply List.Forall_forall. intros k _.
    simpl. discriminate. }
  split.
  - unfold report_columns, search_columns. apply list_remove_tail. exact H.
  - intros Hin. rewrite List.Forall_forall in H. exact (H _ Hin eq_refl).
Qed.
